(** * Polymarket arbitrage monitor: a shallow embedding of
      [polymarket_monitor.py] and the properties of its sampling loop.

    The Python program keeps prices as binary64 floats, writes CSV rows of
    strings, and talks to a file system, a remote worksheet, a clock and a
    terminal.  Floats are modelled with the Standard Library's executable
    IEEE-754 specification ([SpecFloat], precision 53, [emax] 1024); the
    outside world is an explicit state threaded through a small
    state-and-exception monad. *)

From Stdlib Require Import ZArith NArith String Ascii DecimalString DecimalPos DecimalN SpecFloat.
From stdpp Require Import gmap strings list fin_maps.

Open Scope Z_scope.

(** ** Python floats (IEEE-754 binary64) *)

Module PyFloat.

Definition float := spec_float.

Definition prec : Z := 53.
Definition emax : Z := 1024.

(** The float of a Python integer literal or of [float(z)]. *)
Definition of_Z (z : Z) : float := binary_normalize prec emax z 0 false.

(** The float denoted by the decimal literal [num / den] ([den] a power of
    ten): the correctly rounded quotient, as Python's parser produces. *)
Definition lit (num den : Z) : float := SFdiv prec emax (of_Z num) (of_Z den).

Definition add : float -> float -> float := SFadd prec emax.
Definition sub : float -> float -> float := SFsub prec emax.
Definition ltb : float -> float -> bool := SFltb.

(** Nearest integer to [num / den] for [0 <= num], ties to even. *)
Definition round_half_even (num : Z) (den : positive) : Z :=
  let q := num / Zpos den in
  let r := num mod Zpos den in
  match 2 * r ?= Zpos den with
  | Lt => q
  | Gt => q + 1
  | Eq => if Z.even q then q else q + 1
  end.

(** [|m * 2^e| * 10^4], rounded to the nearest integer, ties to even: the
    number of ten-thousandths that [format(x, '.4f')] prints. *)
Definition scaled4 (m : positive) (e : Z) : Z :=
  match e with
  | Z0 => Zpos m * 10000
  | Zpos p => Zpos m * 10000 * 2 ^ Zpos p
  | Zneg p => round_half_even (Zpos m * 10000) (2 ^ p)%positive
  end.

Definition digit_char (d : Z) : ascii := ascii_of_N (48 + Z.to_N d).

Definition string_of_nat_Z (z : Z) : string :=
  NilZero.string_of_uint (N.to_uint (Z.to_N z)).

(** Four digits, zero padded. *)
Definition pad4 (r : Z) : string :=
  String (digit_char (r / 1000))
    (String (digit_char (r / 100 mod 10))
       (String (digit_char (r / 10 mod 10))
          (String (digit_char (r mod 10)) EmptyString))).

(** The text of [k] ten-thousandths with sign [neg]. *)
Definition render_fixed4 (neg : bool) (k : Z) : string :=
  (if neg then "-" else "") +:+ string_of_nat_Z (k / 10000) +:+ "." +:+ pad4 (k mod 10000).

(** [f"{x:.4f}"]. *)
Definition fmt4 (x : float) : string :=
  match x with
  | S754_nan => "nan"
  | S754_infinity s => if s then "-inf" else "inf"
  | S754_zero s => render_fixed4 s 0
  | S754_finite s m e => render_fixed4 s (scaled4 m e)
  end.

(** Reading a fixed-4-decimal text back: the sign and the number of
    ten-thousandths it denotes. *)
Definition digit_val (c : ascii) : option Z :=
  let n := Z.of_N (N_of_ascii c) in
  if (48 <=? n) && (n <=? 57) then Some (n - 48) else None.

Fixpoint split_dot (s : string) : option (string * string) :=
  match s with
  | EmptyString => None
  | String c r =>
      if Ascii.eqb c "."%char then Some (EmptyString, r)
      else match split_dot r with
           | Some (a, b) => Some (String c a, b)
           | None => None
           end
  end.

Definition parse_frac4 (s : string) : option Z :=
  match s with
  | String a (String b (String c (String d EmptyString))) =>
      match digit_val a, digit_val b, digit_val c, digit_val d with
      | Some a, Some b, Some c, Some d => Some (a * 1000 + b * 100 + c * 10 + d)
      | _, _, _, _ => None
      end
  | _ => None
  end.

Definition parse_unsigned4 (s : string) : option Z :=
  match split_dot s with
  | Some (i, f) =>
      match NilZero.uint_of_string i, parse_frac4 f with
      | Some u, Some r => Some (Z.of_N (N.of_uint u) * 10000 + r)
      | _, _ => None
      end
  | None => None
  end.

Definition parse_fixed4 (s : string) : option (bool * Z) :=
  match s with
  | String c r =>
      if Ascii.eqb c "-"%char then pair true <$> parse_unsigned4 r
      else pair false <$> parse_unsigned4 s
  | EmptyString => None
  end.

(** The exact value of a finite float as a fraction [num / den] of its
    magnitude. *)
Definition magnitude (x : float) : option (Z * Z) :=
  match x with
  | S754_zero _ => Some (0, 1)
  | S754_finite _ m (Zneg p) => Some (Zpos m, 2 ^ Zpos p)
  | S754_finite _ m e => Some (Zpos m * 2 ^ e, 1)
  | _ => None
  end.

Definition sign_bit (x : float) : bool :=
  match x with
  | S754_zero s | S754_infinity s | S754_finite s _ _ => s
  | S754_nan => false
  end.

(** Following the specification's words: [k] ten-thousandths is the value
    [num / den] rounded to 4 decimal places (nearest, ties to the even
    digit). *)
Definition rounds_to_4dp (num den k : Z) : Prop :=
  0 <= k /\
  2 * Z.abs (k * den - 10000 * num) <= den /\
  (2 * Z.abs (k * den - 10000 * num) = den -> Z.even k = true).

End PyFloat.

Import PyFloat.


(** ** Data model *)

(** One entry of the ["markets"] list of the configuration, with its keys
    ['id'], ['name'] and ['api_endpoint'].  The program reads ['id'] and
    ['name'] with [market['id']] and [market['name']]; the entries modelled
    here are those that carry both keys (for any other, every line that
    formats the name raises [KeyError]). *)
Record Market := {
  market_id : string;
  market_name : string;
  api_endpoint : string
}.

(** A JSON value as far as Python's truth test tells values apart: arrays
    and objects by their number of elements. *)
Inductive json :=
| JNull
| JBool (b : bool)
| JNumber (x : float)
| JString (s : string)
| JArray (size : nat)
| JObject (size : nat).

(** [bool(v)]: [None], [False], zero, the empty string and the empty
    containers are false, everything else is true. *)
Definition truthy (v : json) : bool :=
  match v with
  | JNull => false
  | JBool b => b
  | JNumber x => match x with S754_zero _ => false | _ => true end
  | JString s => negb (String.eqb s "")
  | JArray size | JObject size => negb (Nat.eqb size 0)
  end.

(** The dictionary read from the configuration file.  Every key may be
    absent ([None]); the threshold set is itself a dictionary from level
    names to price-sum ceilings, JSON numbers being read as binary64
    floats.  The value under ["use_google_sheets"] is only ever tested for
    truth, so it is kept as the JSON value it is. *)
Record Config := {
  markets : option (list Market);
  thresholds : option (gmap string float);
  polling_interval_seconds : option Z;
  output_csv : option string;
  use_google_sheets : option json;
  google_sheets_name : option string
}.

(** A CSV row, as handed to [csv.writer.writerow] and to [append_row]. *)
Definition Row := list string.

(** Python exceptions the program meets.  [KeyboardInterrupt] is the only
    one that is not a subclass of [Exception]; [JSONDecodeError] is what
    [json.load] raises on a text that is not a JSON document. *)
Inductive exn :=
| KeyError (key : string)
| OSError (msg : string)
| ValueError (msg : string)
| JSONDecodeError (path : string)
| Exception (msg : string)
| KeyboardInterrupt.

Definition is_Exception (e : exn) : bool :=
  match e with
  | KeyboardInterrupt => false
  | _ => true
  end.

Definition is_KeyboardInterrupt (e : exn) : bool := negb (is_Exception e).

(** The lines the program prints, one constructor per [print] call of the
    source, carrying the interpolated values. *)
Inductive Output :=
| CreatedDefaultConfig (config_file : string)
    (* "Created default config file: {config_file}" *)
| PleaseEdit
    (* "Please edit it with your market IDs and settings" *)
| CreatedCsv (csv_file : string)
    (* "Created CSV file: {self.csv_file}" *)
| ConnectedToSheet (sheet_name : string)
    (* "Connected to Google Sheet: {sheet_name}" *)
| ShareLink (sheet_name : string)
    (* "Share link: {sheet.url}" *)
| CouldNotSetupSheets (e : exn)
    (* "Could not setup Google Sheets: {e}" *)
| WillOnlyWriteCsv
    (* "Will only write to CSV file" *)
| ErrorFetching (name : string) (e : exn)
    (* "Error fetching prices for {market['name']}: {e}" *)
| ErrorWritingSheets (e : exn)
    (* "Error writing to Google Sheets: {e}" *)
| ArbitrageFound (name yes no sum gap : string)
    (* "ARBITRAGE FOUND! {name}: YES={yes} + NO={no} = {sum} (Gap: {gap})" *)
| Rule
    (* "=" * 60 *)
| Started
    (* "Polymarket Arbitrage Monitor Started" *)
| Monitoring (n_markets : nat)
    (* "Monitoring {len(self.config['markets'])} markets" *)
| PollingInterval (seconds : Z)
    (* "Polling interval: {self.config['polling_interval_seconds']} seconds" *)
| OutputFile (csv_file : string)
    (* "Output: {self.csv_file}" *)
| SheetsEnabled
    (* "Google Sheets: ENABLED" *)
| PressCtrlC
    (* "Press Ctrl+C to stop" *)
| Iteration (iteration : nat) (timestamp : string)
    (* "[Iteration {iteration}] {timestamp} UTC" *)
| Recorded (name yes no sum gap : string)
    (* "  (ok) {name}: YES={yes} NO={no} Sum={sum} Gap={gap}" *)
| FailedToFetch (name : string)
    (* "  (x) {name}: Failed to fetch prices" *)
| StoppedByUser
    (* "Monitor stopped by user", below a rule *)
| DataSavedTo (csv_file : string)
    (* "Data saved to: {self.csv_file}" *)
| SheetsUpdated
    (* "Google Sheets updated" *).

(** What the program does to the outside world, in order. *)
Inductive Event :=
| Print (o : Output)
| ConfigWrite (config_file : string) (c : Config)
| CsvWrite (csv_file : string) (row : Row)
| SheetAppend (sheet_name : string) (row : Row)
| Sleep (seconds : Z).

(** The text of a file, as the pieces the program writes: a JSON document
    (the object written by [json.dump]), what is left of a document whose
    write was cut short, and CSV lines.  A line that was cut short is kept
    as the line of the fields that reached the disk. *)
Inductive Item :=
| Doc (c : Config)
| TornDoc
| Line (row : Row).

(** What [json.load] reads from a text: the text must be one document. *)
Definition config_of (content : list Item) : option Config :=
  match content with
  | [Doc c] => Some c
  | _ => None
  end.

Definition item_row (it : Item) : option Row :=
  match it with
  | Line row => Some row
  | _ => None
  end.

(** The CSV lines of a text. *)
Definition rows_of (content : list Item) : list Row := omap item_row content.

(** The outside world: one file system, from paths to texts (a path that is
    not bound does not exist; a file is identified with its path), the
    remote spreadsheets by name (the rows of their first worksheet), the
    history of effects (oldest first) and the number of questions asked to
    the environment so far. *)
Record World := {
  files : gmap string (list Item);
  sheets : gmap string (list Row);
  trace : list Event;
  steps : nat
}.

(** The file system as [json.load] sees it: the paths that hold a JSON
    document, with the dictionary read from it. *)
Definition config_files (w : World) : gmap string Config := omap config_of (files w).

(** The file system as a CSV reader sees it: the CSV lines of every file
    that exists (the text of a JSON document is not counted among them). *)
Definition csv_files (w : World) : gmap string (list Row) := rows_of <$> files w.

(** How a write to a file fails, and with which exception.  [Refused]:
    [open] raises, and the file is neither touched nor created.  [Cut]:
    the file is opened (and created when it was missing), and the write or
    the flush raises with only part of the text on the disk: of a line,
    the first [fields] fields and the first [chars] characters of the
    next field.  [Late]: the whole text reaches the disk, and the close
    raises. *)
Inductive write_failure :=
| Refused (e : exn)
| Cut (e : exn) (fields chars : nat)
| Late (e : exn).

Definition failure_exn (failure : write_failure) : exn :=
  match failure with
  | Refused e | Cut e _ _ | Late e => e
  end.

(** What the environment answers, indexed by the question's number: the
    clock, the outcome of the price request, whether opening a file for
    reading raises (apart from [FileNotFoundError], which the file system
    decides), whether and how writing a file fails, and whether a call to
    the spreadsheet service or a sleep raises.  The interrupt (Ctrl+C) is
    delivered where the program waits inside the loop: in the price
    request, in a call to the spreadsheet service, or in the sleep. *)
Record Env := {
  utcnow : nat -> string;
  price_request : nat -> Market -> exn + (float * float);
  read_error : nat -> string -> option exn;
  write_error : nat -> string -> option write_failure;
  sheets_error : nat -> option exn;
  interrupt : nat -> bool
}.

(** ** Effects: state and exceptions *)

Inductive result (A : Type) :=
| Ok (a : A)
| Raise (e : exn).
Arguments Ok {A} a.
Arguments Raise {A} e.

Definition IO (A : Type) : Type := World -> World * result A.

#[global] Instance IO_ret : MRet IO := fun A a w => (w, Ok a).

#[global] Instance IO_bind : MBind IO := fun A B f m w =>
  match m w with
  | (w', Ok a) => f a w'
  | (w', Raise e) => (w', Raise e)
  end.

Definition raise {A} (e : exn) : IO A := fun w => (w, Raise e).

(** [try: body / except <catches> as e: handler e]. *)
Definition try_except {A} (body : IO A) (catches : exn -> bool) (handler : exn -> IO A) : IO A :=
  fun w =>
    match body w with
    | (w', Raise e) => if catches e then handler e w' else (w', Raise e)
    | r => r
    end.

(** The world after the effect [ev], and after one more question. *)
Definition logged (ev : Event) (w : World) : World :=
  {| files := files w; sheets := sheets w; trace := trace w ++ [ev]; steps := steps w |}.

Definition asked (w : World) : World :=
  {| files := files w; sheets := sheets w; trace := trace w; steps := S (steps w) |}.

Definition emit (ev : Event) : IO unit := fun w => (logged ev w, Ok tt).

Definition print (o : Output) : IO unit := emit (Print o).

(** Ask the environment; every question advances [steps]. *)
Definition ask {A} (oracle : nat -> A) : IO A := fun w => (asked w, Ok (oracle (steps w))).

(** [d[key]] on a dictionary whose lookup gave [o]. *)
Definition getitem {A} (key : string) (o : option A) : IO A :=
  match o with
  | Some a => mret a
  | None => raise (KeyError key)
  end.

Definition with_file (path : string) (content : list Item) (w : World) : World :=
  {| files := <[path := content]> (files w); sheets := sheets w;
     trace := trace w; steps := steps w |}.

Definition with_sheet (sheet_name : string) (rows : list Row) (w : World) : World :=
  {| files := files w; sheets := <[sheet_name := rows]> (sheets w);
     trace := trace w; steps := steps w |}.

Definition set_file (path : string) (content : list Item) : IO unit := fun w =>
  (with_file path content w, Ok tt).

(** The part of [row] that a cut write leaves on the disk. *)
Definition cut_row (fields chars : nat) (row : Row) : Row :=
  take fields row ++
  match row !! fields with
  | Some field => [String.substring 0 chars field]
  | None => []
  end.

(** The lines a cut write of [row] leaves at the end of the file: none when
    nothing reached the disk. *)
Definition leftover (fields chars : nat) (row : Row) : list Item :=
  match fields, chars with
  | O, O => []
  | _, _ => [Line (cut_row fields chars row)]
  end.

Definition set_sheet (sheet_name : string) (rows : list Row) : IO unit := fun w =>
  (with_sheet sheet_name rows w, Ok tt).

Definition get_world : IO World := fun w => (w, Ok w).

(** What a failed write of the line [row] leaves at the end of the file. *)
Definition left_on_disk (failure : write_failure) (row : Row) : list Item :=
  match failure with
  | Refused _ => []
  | Cut _ fields chars => leftover fields chars row
  | Late _ => [Line row]
  end.

(** The world after a failed attempt to append [row] to the file [f]: as
    it was when the open is refused, and otherwise with what the write
    left at the end of the file. *)
Definition after_failed_write (failure : write_failure) (f : string) (row : Row)
    (w : World) : World :=
  match failure with
  | Refused _ => w
  | _ => with_file f (default [] (files w !! f) ++ left_on_disk failure row) w
  end.

(** ** The program: class [PolymarketArbitrageMonitor] *)

(** The object's attributes: [self.config], [self.csv_file] and
    [self.gsheet] (the worksheet handle, here the spreadsheet's name, or
    [None]). *)
Record Monitor := {
  config : Config;
  csv_file : string;
  gsheet : option string
}.

Definition default_config : Config := {|
  markets := Some [ {| market_id := "market_id_1";
                       market_name := "Trump wins 2024";
                       api_endpoint := "https://clob.polymarket.com/markets/market_id_1" |} ];
  thresholds := Some (<["primary" := lit 100 100]>
                        (<["secondary" := lit 95 100]>
                           (<["tertiary" := lit 90 100]> ∅)));
  polling_interval_seconds := Some 5;
  output_csv := Some "arbitrage_data.csv"%string;
  use_google_sheets := Some (JBool false);
  google_sheets_name := Some "Polymarket Arbitrage Data"%string
|}.

Definition csv_header : Row :=
  [ "Timestamp_UTC"; "Market_ID"; "Market_Name"; "YES_Price"; "NO_Price";
    "Sum"; "Gap_From_One"; "Below_1.00"; "Below_0.95"; "Below_0.90" ]%string.

Section Program.

Variable env : Env.

(** Module-level flag set by the optional import of [gspread]. *)
Variable GSHEETS_AVAILABLE : bool.

(** [with open(path, 'w') as f: json.dump(c, f, indent=2)]: the file then
    holds the document alone; a write that is cut short leaves a text that
    is not a document. *)
Definition dump_config (path : string) (c : Config) : IO unit :=
  failure ← ask (fun i => write_error env i path);
  match failure with
  | None => set_file path [Doc c];; emit (ConfigWrite path c)
  | Some (Refused e) => raise e
  | Some (Cut e _ _) => set_file path [TornDoc];; raise e
  | Some (Late e) => set_file path [Doc c];; raise e
  end.

(** [with open(path, mode, newline='') as f: csv.writer(f).writerow(row)],
    where [old] is the text the file keeps: none in mode ['w'], the whole
    file in mode ['a'].  A write that fails once the file is open leaves
    part of the line, or the line, behind [old]. *)
Definition write_row (path : string) (old : list Item) (row : Row) : IO unit :=
  failure ← ask (fun i => write_error env i path);
  match failure with
  | None => set_file path (old ++ [Line row]);; emit (CsvWrite path row)
  | Some (Refused e) => raise e
  | Some (Cut e fields chars) =>
      set_file path (old ++ leftover fields chars row);; raise e
  | Some (Late e) => set_file path (old ++ [Line row]);; raise e
  end.

(** [load_config]: the file's dictionary as it is, or, when the file does
    not exist ([FileNotFoundError], the only exception caught), the default
    configuration, which is also written out.  Any other failure of
    [open], and a text that [json.load] cannot parse, leave the method as
    an exception. *)
Definition load_config (config_file : string) : IO Config :=
  err ← ask (fun i => read_error env i config_file);
  match err with
  | Some e => raise e
  | None =>
      w ← get_world;
      match files w !! config_file with
      | Some content =>
          match config_of content with
          | Some c => mret c
          | None => raise (JSONDecodeError config_file)
          end
      | None =>
          dump_config config_file default_config;;
          print (CreatedDefaultConfig config_file);;
          print PleaseEdit;;
          mret default_config
      end
  end.

(** [setup_csv]: the header is written only when the file does not exist. *)
Definition setup_csv (csv_file : string) : IO unit :=
  w ← get_world;
  let file_exists := bool_decide (is_Some (files w !! csv_file)) in
  if negb file_exists then
    write_row csv_file [] csv_header;;
    print (CreatedCsv csv_file)
  else mret tt.

(** A call to the spreadsheet service: the environment may make it raise. *)
Definition remote_call : IO unit :=
  err ← ask (sheets_error env);
  match err with
  | Some e => raise e
  | None => mret tt
  end.

Definition sheet_append_row (sheet_name : string) (row : Row) : IO unit :=
  remote_call;;
  w ← get_world;
  set_sheet sheet_name (default [] (sheets w !! sheet_name) ++ [row]);;
  emit (SheetAppend sheet_name row).

(** [setup_google_sheets]: the value left in [self.gsheet]. *)
Definition setup_google_sheets (config : Config) : IO (option string) :=
  try_except
    (remote_call;;
     let sheet_name := default "Polymarket Arbitrage Data"%string (google_sheets_name config) in
     remote_call;;
     w ← get_world;
     match sheets w !! sheet_name with
     | Some _ => mret tt
     | None => set_sheet sheet_name []
     end;;
     w ← get_world;
     match default [] (sheets w !! sheet_name) with
     | [] | [] :: _ => sheet_append_row sheet_name csv_header
     | _ => mret tt
     end;;
     print (ConnectedToSheet sheet_name);;
     print (ShareLink sheet_name);;
     mret (Some sheet_name))
    is_Exception
    (fun e =>
       print (CouldNotSetupSheets e);;
       print WillOnlyWriteCsv;;
       mret None).

(** [__init__]. *)
Definition init (config_file : string) : IO Monitor :=
  config ← load_config config_file;
  let csv_file := default "arbitrage_data.csv"%string (output_csv config) in
  setup_csv csv_file;;
  gsheet ← (if GSHEETS_AVAILABLE && truthy (default (JBool false) (use_google_sheets config))
            then setup_google_sheets config
            else mret None);
  mret {| config := config; csv_file := csv_file; gsheet := gsheet |}.

(** [fetch_market_prices]: the body of the [try] is a placeholder for the
    price request, whose outcome the environment decides; [except
    Exception] turns a failure into a printed line and [(None, None)]. *)
Definition fetch_market_prices (market : Market) : IO (option float * option float) :=
  try_except
    (r ← ask (fun i => price_request env i market);
     match r with
     | inr (yes_price, no_price) => mret (Some yes_price, Some no_price)
     | inl e => raise e
     end)
    is_Exception
    (fun e =>
       print (ErrorFetching (market_name market) e);;
       mret (None, None)).

Definition yes_no (b : bool) : string := if b then "YES" else "NO".

(** The block "Write to CSV" of [record_data]: [open(self.csv_file, 'a')]
    creates a missing file, and [writerow] adds the row at its end. *)
Definition write_to_csv (self : Monitor) (row : Row) : IO unit :=
  w ← get_world;
  write_row (csv_file self) (default [] (files w !! csv_file self)) row.

(** The block "Write to Google Sheets if available" of [record_data]. *)
Definition write_to_sheets (self : Monitor) (row : Row) : IO unit :=
  match gsheet self with
  | Some sheet_name =>
      try_except (sheet_append_row sheet_name row) is_Exception
        (fun e => print (ErrorWritingSheets e))
  | None => mret tt
  end.

(** [record_data]. *)
Definition record_data (self : Monitor) (market : Market) (yes_price no_price : float) : IO float :=
  timestamp ← ask (utcnow env);
  let price_sum := add yes_price no_price in
  let gap := sub (lit 100 100) price_sum in
  thresholds ← getitem "thresholds" (thresholds (config self));
  primary ← getitem "primary" (thresholds !! "primary"%string);
  let below_primary := yes_no (ltb price_sum primary) in
  secondary ← getitem "secondary" (thresholds !! "secondary"%string);
  let below_secondary := yes_no (ltb price_sum secondary) in
  tertiary ← getitem "tertiary" (thresholds !! "tertiary"%string);
  let below_tertiary := yes_no (ltb price_sum tertiary) in
  let row := [ timestamp; market_id market; market_name market;
               fmt4 yes_price; fmt4 no_price; fmt4 price_sum; fmt4 gap;
               below_primary; below_secondary; below_tertiary ] in
  write_to_csv self row;;
  write_to_sheets self row;;
  (if ltb price_sum primary
   then print (ArbitrageFound (market_name market) (fmt4 yes_price) (fmt4 no_price)
                 (fmt4 price_sum) (fmt4 gap))
   else mret tt);;
  mret gap.

(** The [if]/[else] of the loop body of [monitor_markets], on the pair the
    fetch returned. *)
Definition handle_prices (self : Monitor) (market : Market)
    (fetched : option float * option float) : IO unit :=
  match fetched with
  | (Some yes_price, Some no_price) =>
      gap ← record_data self market yes_price no_price;
      print (Recorded (market_name market) (fmt4 yes_price) (fmt4 no_price)
               (fmt4 (add yes_price no_price)) (fmt4 gap))
  | _ => print (FailedToFetch (market_name market))
  end.

(** One turn of [for market in self.config['markets']]. *)
Definition poll_market (self : Monitor) (market : Market) : IO unit :=
  fetched ← fetch_market_prices market;
  handle_prices self market fetched.

Fixpoint poll_markets (self : Monitor) (ms : list Market) : IO unit :=
  match ms with
  | [] => mret tt
  | market :: rest => poll_market self market;; poll_markets self rest
  end.

(** [time.sleep]. *)
Definition sleep (seconds : Z) : IO unit :=
  if seconds <? 0 then raise (ValueError "sleep length must be non-negative")
  else
    emit (Sleep seconds);;
    stop ← ask (interrupt env);
    if stop : bool then raise KeyboardInterrupt else mret tt.

(** One turn of [while True], for the value of [iteration] after its
    increment. *)
Definition tick (self : Monitor) (iteration : nat) : IO unit :=
  timestamp ← ask (utcnow env);
  print (Iteration iteration timestamp);;
  ms ← getitem "markets" (markets (config self));
  poll_markets self ms;;
  seconds ← getitem "polling_interval_seconds" (polling_interval_seconds (config self));
  sleep seconds.

(** How a run of the loop stands: [while True] never ends by itself, so
    after any number of turns it is either still running or has raised. *)
Inductive Status := Running | Returned.

(** The first [fuel] turns of [while True], [iteration] turns having been
    made before. *)
Fixpoint loop (self : Monitor) (fuel : nat) (iteration : nat) : IO Status :=
  match fuel with
  | O => mret Running
  | S fuel' => tick self (S iteration);; loop self fuel' (S iteration)
  end.

(** [monitor_markets], observed for [fuel] turns of its loop. *)
Definition monitor_markets (self : Monitor) (fuel : nat) : IO Status :=
  print Rule;;
  print Started;;
  print Rule;;
  ms ← getitem "markets" (markets (config self));
  print (Monitoring (length ms));;
  seconds ← getitem "polling_interval_seconds" (polling_interval_seconds (config self));
  print (PollingInterval seconds);;
  print (OutputFile (csv_file self));;
  (if bool_decide (is_Some (gsheet self)) then print SheetsEnabled else mret tt);;
  print PressCtrlC;;
  print Rule;;
  try_except (loop self fuel 0) is_KeyboardInterrupt
    (fun _ =>
       print Rule;;
       print StoppedByUser;;
       print (DataSavedTo (csv_file self));;
       (if bool_decide (is_Some (gsheet self)) then print SheetsUpdated else mret tt);;
       print Rule;;
       mret Returned).

(** [main]. *)
Definition main (fuel : nat) : IO Status :=
  monitor ← init "config.json";
  monitor_markets monitor fuel.

End Program.

(** ** Vocabulary of the specification *)

(** The field of a row under the header's column [name]. *)
Fixpoint index_of (name : string) (header : Row) : option nat :=
  match header with
  | [] => None
  | h :: rest => if String.eqb h name then Some O else S <$> index_of name rest
  end.

Definition column (name : string) (row : Row) : option string :=
  i ← index_of name csv_header; row !! i.

(** The column that carries the boolean of a threshold level. *)
Definition level_column (level : string) : option string :=
  if String.eqb level "primary" then Some "Below_1.00"%string
  else if String.eqb level "secondary" then Some "Below_0.95"%string
  else if String.eqb level "tertiary" then Some "Below_0.90"%string
  else None.

(** Following the specification's words: the text [s] is the float [x]
    "rounded to 4 decimal places": for a finite [x] it reads back as the
    sign of [x] and the nearest number of ten-thousandths to its exact
    magnitude; an infinity or a NaN is written by name. *)
Definition written_rounded4 (x : float) (s : string) : Prop :=
  match magnitude x with
  | Some (num, den) =>
      exists k, parse_fixed4 s = Some (sign_bit x, k) /\ rounds_to_4dp num den k
  | None =>
      s = match x with
          | S754_nan => "nan"
          | _ => if sign_bit x then "-inf" else "inf"
          end%string
  end.

(** The rows of a CSV file, none when the file does not exist. *)
Definition csv_rows (w : World) (csv_file : string) : list Row :=
  default [] (csv_files w !! csv_file).

(** Following the specification's words: evaluating the pair [(y, n)]
    produces a record with the rounded prices, sum and gap and, for each
    named level of the configured threshold set, the boolean
    [y + n < level value]. *)
Definition evaluates_every_level (env : Env) (self : Monitor) (market : Market)
    (y n : float) (w : World) : Prop :=
  exists w' gap row tset,
    record_data env self market y n w = (w', Ok gap) /\
    csv_rows w' (csv_file self) = csv_rows w (csv_file self) ++ [row] /\
    thresholds (config self) = Some tset /\
    (exists s, column "YES_Price" row = Some s /\ written_rounded4 y s) /\
    (exists s, column "NO_Price" row = Some s /\ written_rounded4 n s) /\
    (exists s, column "Sum" row = Some s /\ written_rounded4 (add y n) s) /\
    (exists s, column "Gap_From_One" row = Some s /\
               written_rounded4 (sub (lit 100 100) (add y n)) s) /\
    forall (level : string) (ceiling : float),
      tset !! level = Some ceiling ->
      exists col, level_column level = Some col /\
                  column col row = Some (yes_no (ltb (add y n) ceiling)).

(** The record of one observation, as [record_data] lays it out. *)
Definition observation_row (timestamp : string) (market : Market)
    (y n primary secondary tertiary : float) : Row :=
  [ timestamp; market_id market; market_name market;
    fmt4 y; fmt4 n; fmt4 (add y n); fmt4 (sub (lit 100 100) (add y n));
    yes_no (ltb (add y n) primary); yes_no (ltb (add y n) secondary);
    yes_no (ltb (add y n) tertiary) ].

(** What the mirror step leaves in the history when question [i] is the
    call to the spreadsheet service. *)
Definition mirror_events (env : Env) (self : Monitor) (row : Row) (i : nat) : list Event :=
  match gsheet self with
  | None => []
  | Some sheet_name =>
      match sheets_error env i with
      | None => [SheetAppend sheet_name row]
      | Some e => [Print (ErrorWritingSheets e)]
      end
  end.

(** The alert of an observation whose sum is below the primary ceiling. *)
Definition alert_events (market : Market) (y n primary : float) : list Event :=
  if ltb (add y n) primary
  then [Print (ArbitrageFound (market_name market) (fmt4 y) (fmt4 n) (fmt4 (add y n))
                 (fmt4 (sub (lit 100 100) (add y n))))]
  else [].

(** The three levels the program reads from the threshold set. *)
Definition has_levels (self : Monitor) (primary secondary tertiary : float) : Prop :=
  exists tset, thresholds (config self) = Some tset /\
    tset !! "primary"%string = Some primary /\
    tset !! "secondary"%string = Some secondary /\
    tset !! "tertiary"%string = Some tertiary.

(** The lines that report a failed fetch. *)
Definition is_failure_line (ev : Event) : bool :=
  match ev with
  | Print (ErrorFetching _ _) | Print (FailedToFetch _) => true
  | _ => false
  end.

Definition failure_lines (evs : list Event) : list Event := List.filter is_failure_line evs.

(** The environment never interrupts: a failure of a blocking call is an
    [Exception], and no sleep is cut short. *)
Definition no_interrupts (env : Env) : Prop :=
  (forall i m e, price_request env i m = inl e -> is_Exception e = true) /\
  (forall i e, sheets_error env i = Some e -> is_Exception e = true) /\
  (forall i, interrupt env i = false).

(** No write to a file fails: every file can be opened for writing, and
    what is written reaches the disk. *)
Definition files_open (env : Env) : Prop := forall i f, write_error env i f = None.

(** No open for reading is refused. *)
Definition files_readable (env : Env) : Prop := forall i f, read_error env i f = None.

(** The price request for [m] always answers. *)
Definition answers (env : Env) (m : Market) : Prop :=
  forall i, exists y n, price_request env i m = inr (y, n).

(** ** Scenarios *)

(** An environment in which nothing goes wrong: every price request
    answers [(0.46, 0.50)]. *)
Definition quiet_env : Env := {|
  utcnow := fun _ => "2024-01-01 00:00:00"%string;
  price_request := fun _ _ => inr (lit 46 100, lit 50 100);
  read_error := fun _ _ => None;
  write_error := fun _ _ => None;
  sheets_error := fun _ => None;
  interrupt := fun _ => false
|}.

Definition empty_world : World :=
  {| files := ∅; sheets := ∅; trace := []; steps := 0 |}.

Definition sample_market (name : string) : Market :=
  {| market_id := "id_" +:+ name; market_name := name; api_endpoint := "" |}.

(** A monitor over the markets [ms] with the threshold set [tset], logging
    to ["arbitrage_data.csv"], with or without a mirror. *)
Definition sample_monitor (ms : list Market) (tset : gmap string float)
    (gsheet : option string) : Monitor :=
  {| config := {| markets := Some ms; thresholds := Some tset;
                  polling_interval_seconds := Some 5; output_csv := None;
                  use_google_sheets := None; google_sheets_name := None |};
     csv_file := "arbitrage_data.csv";
     gsheet := gsheet |}.

Definition default_levels : gmap string float :=
  <["primary" := lit 100 100]> (<["secondary" := lit 95 100]> (<["tertiary" := lit 90 100]> ∅)).

(** A threshold set with a single level. *)
Definition primary_only : gmap string float := {[ "primary"%string := lit 100 100 ]}.

(** The mirror refuses every call. *)
Definition mirror_down_env : Env := {|
  utcnow := fun _ => "2024-01-01 00:00:00"%string;
  price_request := fun _ _ => inr (lit 46 100, lit 50 100);
  read_error := fun _ _ => None;
  write_error := fun _ _ => None;
  sheets_error := fun _ => Some (Exception "quota exceeded");
  interrupt := fun _ => false
|}.

(** The price request of the market named "B" times out; the others answer. *)
Definition b_fails_env : Env := {|
  utcnow := fun _ => "2024-01-01 00:00:00"%string;
  price_request := fun _ m =>
    if String.eqb (market_name m) "B" then inl (Exception "timeout")
    else inr (lit 46 100, lit 50 100);
  read_error := fun _ _ => None;
  write_error := fun _ _ => None;
  sheets_error := fun _ => None;
  interrupt := fun _ => false
|}.

(** The file system refuses every open for writing. *)
Definition read_only_env : Env := {|
  utcnow := fun _ => "2024-01-01 00:00:00"%string;
  price_request := fun _ _ => inr (lit 46 100, lit 50 100);
  read_error := fun _ _ => None;
  write_error := fun _ _ => Some (Refused (OSError "Read-only file system"));
  sheets_error := fun _ => None;
  interrupt := fun _ => false
|}.

(** The market label a failure line carries. *)
Definition failure_label (ev : Event) : option string :=
  match ev with
  | Print (ErrorFetching label _) | Print (FailedToFetch label) => Some label
  | _ => None
  end.

(** Following the specification's words: in the tick [it] over the markets
    [pre ++ b :: post], the markets other than [b] produce their records,
    [b] produces exactly one failure entry, which records the market id, and
    the tick completes with the sleep. *)
Definition isolates_fault (env : Env) (self : Monitor) (it : nat) (w : World)
    (pre : list Market) (b : Market) (post : list Market) : Prop :=
  exists w' rows evs entry seconds,
    tick env self it w = (w', Ok tt) /\
    csv_rows w' (csv_file self) = csv_rows w (csv_file self) ++ rows /\
    Forall2 (fun row m => column "Market_ID" row = Some (market_id m)) rows (pre ++ post) /\
    trace w' = trace w ++ evs ++ [Sleep seconds] /\
    failure_lines evs = [entry] /\
    failure_label entry = Some (market_id b).

(** Following the specification's words: a failed durable write does not
    terminate the process: [monitor_markets] does not end with the error. *)
Definition survives_durable_failure (env : Env) (self : Monitor) (fuel : nat) (w : World) : Prop :=
  forall w' msg, monitor_markets env self fuel w <> (w', Raise (OSError msg)).

(** *** The durable log across restarts *)

(** The CSV file that a run logs to when the configuration files are [cf]:
    the ["output_csv"] entry of ["config.json"], or the default name. *)
Definition destination_of (cf : gmap string Config) : string :=
  default "arbitrage_data.csv"%string
    (output_csv (default default_config (cf !! "config.json"%string))).

Definition destination (w : World) : string := destination_of (config_files w).

(** The world left by successive runs of the program, each one observed
    for some number of turns before the process ends. *)
Definition restarts (env : Env) (GSHEETS_AVAILABLE : bool) (fuels : list nat) (w : World) : World :=
  foldl (fun w fuel => (main env GSHEETS_AVAILABLE fuel w).1) w fuels.



(** The program can read its configuration from the file system [fs]:
    ["config.json"] is missing (and the default is used) or holds a JSON
    document. *)
Definition loadable (fs : gmap string (list Item)) : Prop :=
  fs !! "config.json"%string = None \/ is_Some (fs !! "config.json"%string ≫= config_of).

(** Every run that gets as far as logging logs to [f]. *)
Definition logs_to (f : string) (fs : gmap string (list Item)) : Prop :=
  loadable fs -> destination_of (omap config_of fs) = f.

(** The file [f] holds the text [content0] followed by lines that are not
    the header. *)
Definition appended_to (f : string) (content0 : list Item) (fs : gmap string (list Item)) : Prop :=
  exists more, fs !! f = Some (content0 ++ more) /\
               Forall (fun row => row <> csv_header) (rows_of more).

(** The action [m] keeps the property [Q] of the file system. *)
Definition keeps {A} (Q : gmap string (list Item) -> Prop) (m : IO A) : Prop :=
  forall w, Q (files w) -> Q (files (m w).1).

(** While a monitor runs: the runs still log to [d], and the file [f]
    holds [content0] followed by lines that are not the header. *)
Definition logging_to (d f : string) (content0 : list Item)
    (fs : gmap string (list Item)) : Prop :=
  logs_to d fs /\ appended_to f content0 fs.

(** What a start leaves in the file [f] when it found [found] there: the
    text it found; or, the file being missing, nothing still, or at most
    one line (the header, or what a cut write left of it). *)
Definition started_on (found after : option (list Item)) : Prop :=
  match found with
  | Some content => after = Some content
  | None => after = None \/ exists top, (length top <= 1)%nat /\ after = Some top
  end.

(** The disk fills up: from the seventh question on, every write is cut
    short after the first three fields and two characters of the fourth. *)
Definition disk_fills_env : Env := {|
  utcnow := fun _ => "2024-01-01 00:00:00"%string;
  price_request := fun _ _ => inr (lit 46 100, lit 50 100);
  read_error := fun _ _ => None;
  write_error := fun i _ =>
    if (6 <=? i)%nat then Some (Cut (OSError "No space left on device") 3 2) else None;
  sheets_error := fun _ => None;
  interrupt := fun _ => false
|}.

(** The price request of every market times out. *)
Definition timeout_env : Env := {|
  utcnow := fun _ => "2024-01-01 00:00:00"%string;
  price_request := fun _ _ => inl (Exception "timeout");
  read_error := fun _ _ => None;
  write_error := fun _ _ => None;
  sheets_error := fun _ => None;
  interrupt := fun _ => false
|}.



(** Following the specification's words: the fetch never propagates an
    exception to its caller: it always returns a pair. *)
Definition fetch_is_total (env : Env) (market : Market) (w : World) : Prop :=
  exists w' pair, fetch_market_prices env market w = (w', Ok pair).

(** Ctrl+C arrives during every price request. *)
Definition interrupted_env : Env := {|
  utcnow := fun _ => "2024-01-01 00:00:00"%string;
  price_request := fun _ _ => inl KeyboardInterrupt;
  read_error := fun _ _ => None;
  write_error := fun _ _ => None;
  sheets_error := fun _ => None;
  interrupt := fun _ => false
|}.

(** *** Configuration defaults *)

Definition empty_config : Config :=
  {| markets := None; thresholds := None; polling_interval_seconds := None;
     output_csv := None; use_google_sheets := None; google_sheets_name := None |}.

Definition or_default {A} (o d : option A) : option A :=
  match o with
  | Some _ => o
  | None => d
  end.

(** Following the specification's words: the configuration [c] with every
    missing field filled with the documented default. *)
Definition fill_defaults (c : Config) : Config :=
  {| markets := or_default (markets c) (markets default_config);
     thresholds := or_default (thresholds c) (thresholds default_config);
     polling_interval_seconds :=
       or_default (polling_interval_seconds c) (polling_interval_seconds default_config);
     output_csv := or_default (output_csv c) (output_csv default_config);
     use_google_sheets := or_default (use_google_sheets c) (use_google_sheets default_config);
     google_sheets_name := or_default (google_sheets_name c) (google_sheets_name default_config) |}.

(** Following the specification's words: loading fills the missing fields
    and persists the result, whether the file is absent (no field at all)
    or present. *)
Definition fills_and_persists (env : Env) (config_file : string) (w : World) : Prop :=
  let filled := fill_defaults (default empty_config (config_files w !! config_file)) in
  exists w', load_config env config_file w = (w', Ok filled) /\
             config_files w' !! config_file = Some filled.

(** A configuration file that names its markets and nothing else. *)
Definition markets_only : Config :=
  {| markets := Some [sample_market "A"]; thresholds := None;
     polling_interval_seconds := None; output_csv := None;
     use_google_sheets := None; google_sheets_name := None |}.

Definition markets_only_world : World :=
  {| files := {[ "config.json"%string := [Doc markets_only] ]};
     sheets := ∅; trace := []; steps := 0 |}.

(** *** Further vocabulary *)

(** The monitor [self] with the threshold set [tset] in its configuration. *)
Definition with_thresholds (self : Monitor) (tset : gmap string float) : Monitor :=
  {| config := {| markets := markets (config self);
                  thresholds := Some tset;
                  polling_interval_seconds := polling_interval_seconds (config self);
                  output_csv := output_csv (config self);
                  use_google_sheets := use_google_sheets (config self);
                  google_sheets_name := google_sheets_name (config self) |};
     csv_file := csv_file self;
     gsheet := gsheet self |}.

(** The status line of a market in a tick: recorded, or failed to fetch. *)
Definition is_status_line (ev : Event) : bool :=
  match ev with
  | Print (Recorded _ _ _ _ _) | Print (FailedToFetch _) => true
  | _ => false
  end.

Definition status_lines (evs : list Event) : list Event := List.filter is_status_line evs.

Definition is_alert (ev : Event) : bool :=
  match ev with
  | Print (ArbitrageFound _ _ _ _ _) => true
  | _ => false
  end.

(** The spreadsheet service answers every call. *)
Definition service_up (env : Env) : Prop := forall i, sheets_error env i = None.

(** The name of the spreadsheet a configuration asks for. *)
Definition sheet_name_of (c : Config) : string :=
  default "Polymarket Arbitrage Data"%string (google_sheets_name c).

(** The lines [monitor_markets] prints before it enters the loop, and the
    world when the loop is entered. *)
Definition banner (self : Monitor) (ms : list Market) (seconds : Z) : list Event :=
  [Print Rule; Print Started; Print Rule; Print (Monitoring (length ms));
   Print (PollingInterval seconds); Print (OutputFile (csv_file self))]
    ++ (if bool_decide (is_Some (gsheet self)) then [Print SheetsEnabled] else [])
    ++ [Print PressCtrlC; Print Rule].

Definition after_banner (self : Monitor) (ms : list Market) (seconds : Z) (w : World) : World :=
  foldl (fun w ev => logged ev w) w (banner self ms seconds).

(** The lines printed when the user stops the monitor. *)
Definition stop_summary (self : Monitor) : list Event :=
  [Print Rule; Print StoppedByUser; Print (DataSavedTo (csv_file self))]
    ++ (if bool_decide (is_Some (gsheet self)) then [Print SheetsUpdated] else [])
    ++ [Print Rule].

(** Ctrl+C arrives during every sleep. *)
Definition impatient_env : Env := {|
  utcnow := fun _ => "2024-01-01 00:00:00"%string;
  price_request := fun _ _ => inr (lit 46 100, lit 50 100);
  read_error := fun _ _ => None;
  write_error := fun _ _ => None;
  sheets_error := fun _ => None;
  interrupt := fun _ => true
|}.

(** The spreadsheet service has no credentials to offer. *)
Definition no_credentials_env : Env := {|
  utcnow := fun _ => "2024-01-01 00:00:00"%string;
  price_request := fun _ _ => inr (lit 46 100, lit 50 100);
  read_error := fun _ _ => None;
  write_error := fun _ _ => None;
  sheets_error := fun _ => Some (Exception "credentials.json not found");
  interrupt := fun _ => false
|}.

(** A monitor whose polling interval is negative. *)
Definition hasty_monitor (ms : list Market) : Monitor :=
  {| config := {| markets := Some ms; thresholds := Some default_levels;
                  polling_interval_seconds := Some (-1); output_csv := None;
                  use_google_sheets := None; google_sheets_name := None |};
     csv_file := "arbitrage_data.csv";
     gsheet := None |}.

(** A world whose log file exists and is empty. *)
Definition empty_log_world : World :=
  {| files := {[ "arbitrage_data.csv"%string := [] ]};
     sheets := ∅; trace := []; steps := 0 |}.

(** A configuration file that asks for the mirror. *)
Definition mirrored_config : Config :=
  {| markets := Some [sample_market "A"]; thresholds := Some default_levels;
     polling_interval_seconds := Some 5; output_csv := Some "log.csv"%string;
     use_google_sheets := Some (JBool true); google_sheets_name := None |}.

(** A configuration file whose ["use_google_sheets"] is the string
    ["false"]. *)
Definition said_false_config : Config :=
  {| markets := Some [sample_market "A"]; thresholds := Some default_levels;
     polling_interval_seconds := Some 5; output_csv := Some "log.csv"%string;
     use_google_sheets := Some (JString "false"); google_sheets_name := None |}.

Definition said_false_world : World :=
  {| files := {[ "config.json"%string := [Doc said_false_config] ]};
     sheets := ∅; trace := []; steps := 0 |}.

(** * Properties *)

(** ** Fixed-4-decimal formatting *)

Section Formatting.

Lemma round_half_even_nearest (num : Z) (den : positive) :
  0 <= num ->
  let k := round_half_even num den in
  0 <= k /\
  2 * Z.abs (k * Zpos den - num) <= Zpos den /\
  (2 * Z.abs (k * Zpos den - num) = Zpos den -> Z.even k = true).
Proof.
  intros Hnum. unfold round_half_even. cbv zeta.
  pose proof (Z.div_mod num (Zpos den) ltac:(lia)) as Hdm.
  pose proof (Z.mod_pos_bound num (Zpos den) ltac:(lia)) as Hr.
  assert (0 <= num / Zpos den) as Hq by (apply Z.div_pos; lia).
  set (q := num / Zpos den) in *. set (r := num mod Zpos den) in *.
  destruct (Z.compare_spec (2 * r) (Zpos den)) as [Heq | Hlt | Hgt].
  - destruct (Z.even q) eqn:Hev.
    + repeat split; [lia | lia | auto].
    + repeat split; [lia | lia |].
      intros _. replace (q + 1) with (Z.succ q) by lia.
      rewrite Z.even_succ, <- Z.negb_even, Hev. reflexivity.
  - repeat split; [lia | lia | lia].
  - repeat split; [lia | lia | lia].
Qed.

Lemma scaled4_rounds (s : bool) (m : positive) (e : Z) (num den : Z) :
  magnitude (S754_finite s m e) = Some (num, den) ->
  rounds_to_4dp num den (scaled4 m e).
Proof.
  unfold magnitude, rounds_to_4dp, scaled4.
  destruct e as [| p | p]; intros [= <- <-].
  - repeat split; lia.
  - assert (0 < 2 ^ Z.pos p) by (apply Z.pow_pos_nonneg; lia).
    repeat split; [nia | | ].
    + replace (_ - _) with 0 by ring. simpl. lia.
    + replace (_ - _) with 0 by ring. simpl. lia.
  - pose proof (round_half_even_nearest (Z.pos m * 10000) (2 ^ p)%positive ltac:(lia)) as H.
    cbv zeta in H. rewrite Pos2Z.inj_pow in H.
    replace (10000 * Z.pos m) with (Z.pos m * 10000) by ring.
    exact H.
Qed.

Lemma digit_val_char (d : Z) : 0 <= d <= 9 -> digit_val (digit_char d) = Some d.
Proof.
  intros H.
  assert (d = 0 \/ d = 1 \/ d = 2 \/ d = 3 \/ d = 4 \/ d = 5 \/ d = 6 \/
          d = 7 \/ d = 8 \/ d = 9) as Hd by lia.
  repeat (destruct Hd as [-> | Hd]; [reflexivity |]). subst d. reflexivity.
Qed.

Lemma parse_frac4_pad4 (r : Z) : 0 <= r < 10000 -> parse_frac4 (pad4 r) = Some r.
Proof.
  intros H. unfold pad4, parse_frac4.
  rewrite !digit_val_char by (Z.to_euclidean_division_equations; lia).
  f_equal. Z.to_euclidean_division_equations. lia.
Qed.

Lemma split_dot_digits (d : Decimal.uint) (rest : string) :
  split_dot (NilEmpty.string_of_uint d +:+ String "."%char rest)
  = Some (NilEmpty.string_of_uint d, rest).
Proof.
  induction d; simpl; try (rewrite IHd); reflexivity.
Qed.

Lemma to_uint_nonnil (n : N) : N.to_uint n <> Decimal.Nil.
Proof.
  destruct n as [| p]; [discriminate | apply Unsigned.to_uint_nonnil].
Qed.

Lemma string_of_nat_Z_digits (z : Z) :
  string_of_nat_Z z = NilEmpty.string_of_uint (N.to_uint (Z.to_N z)).
Proof.
  unfold string_of_nat_Z. pose proof (to_uint_nonnil (Z.to_N z)).
  destruct (N.to_uint (Z.to_N z)); [congruence | reflexivity ..].
Qed.

Lemma parse_unsigned4_render (k : Z) :
  0 <= k ->
  parse_unsigned4 (string_of_nat_Z (k / 10000) +:+ "." +:+ pad4 (k mod 10000)) = Some k.
Proof.
  intros Hk. unfold parse_unsigned4.
  rewrite string_of_nat_Z_digits.
  change ("." +:+ pad4 (k mod 10000)) with (String "."%char (pad4 (k mod 10000))).
  rewrite split_dot_digits.
  rewrite <- string_of_nat_Z_digits. unfold string_of_nat_Z.
  rewrite NilZero.usu by apply to_uint_nonnil.
  rewrite parse_frac4_pad4 by (apply Z.mod_pos_bound; lia).
  rewrite DecimalN.Unsigned.of_to, Z2N.id by (apply Z.div_pos; lia).
  f_equal. Z.to_euclidean_division_equations. lia.
Qed.

Lemma digits_head (d : Decimal.uint) (rest : string) :
  d <> Decimal.Nil ->
  exists c r, NilEmpty.string_of_uint d +:+ rest = String c r /\ Ascii.eqb c "-"%char = false.
Proof.
  destruct d; [congruence | ..]; intros _; eexists _, _; (split; [reflexivity | reflexivity]).
Qed.

(** Reading back what [render_fixed4] wrote gives the sign and the number
    of ten-thousandths. *)
Lemma parse_render_fixed4 (neg : bool) (k : Z) :
  0 <= k -> parse_fixed4 (render_fixed4 neg k) = Some (neg, k).
Proof.
  intros Hk. pose proof (parse_unsigned4_render k Hk) as Hp. destruct neg.
  - change (render_fixed4 true k)
      with (String "-"%char (string_of_nat_Z (k / 10000) +:+ "." +:+ pad4 (k mod 10000))).
    unfold parse_fixed4. change (Ascii.eqb "-" "-") with true. cbv iota.
    rewrite Hp. reflexivity.
  - change (render_fixed4 false k)
      with (string_of_nat_Z (k / 10000) +:+ "." +:+ pad4 (k mod 10000)).
    rewrite string_of_nat_Z_digits in *.
    destruct (digits_head (N.to_uint (Z.to_N (k / 10000))) ("." +:+ pad4 (k mod 10000))
                (to_uint_nonnil _)) as (c & r & Hs & Hc).
    rewrite Hs in *. unfold parse_fixed4. rewrite Hc, Hp. reflexivity.
Qed.

(** What [format(x, '.4f')] writes for a finite [x] reads back as the sign
    of [x] and its magnitude rounded to 4 decimal places. *)
Lemma fmt4_rounds (x : float) (num den : Z) :
  magnitude x = Some (num, den) ->
  exists k, parse_fixed4 (fmt4 x) = Some (sign_bit x, k) /\ rounds_to_4dp num den k.
Proof.
  destruct x as [s | s | | s m e]; try discriminate.
  - intros [= <- <-]. exists 0. split; [destruct s; reflexivity |].
    unfold rounds_to_4dp. simpl. repeat split; lia.
  - intros Hm. exists (scaled4 m e).
    pose proof (scaled4_rounds s m e num den Hm) as Hr.
    split; [| exact Hr].
    cbn [fmt4 sign_bit]. apply parse_render_fixed4. apply Hr.
Qed.

End Formatting.

(** ** Reasoning about effects *)

Lemma bind_eq {A B} (m : IO A) (f : A -> IO B) (w : World) :
  (m ≫= f) w = match m w with
               | (w', Ok a) => f a w'
               | (w', Raise e) => (w', Raise e)
               end.
Proof. reflexivity. Qed.

Lemma fmt4_written (x : float) : written_rounded4 x (fmt4 x).
Proof.
  unfold written_rounded4. destruct (magnitude x) as [[num den] |] eqn:Hm.
  - apply fmt4_rounds. exact Hm.
  - destruct x as [s | s | | s m e]; try discriminate; try reflexivity.
    destruct e; discriminate.
Qed.

#[local] Arguments fmt4 : simpl never.
#[local] Arguments add : simpl never.
#[local] Arguments sub : simpl never.
#[local] Arguments ltb : simpl never.
#[local] Arguments lit : simpl never.

#[local] Arguments csv_files : simpl never.
#[local] Arguments config_files : simpl never.

(** Run the effects of the goal forward, one bind at a time. *)
Ltac io_run := repeat first [ rewrite bind_eq | progress cbn ].

(** *** The two readings of the file system *)

Lemma rows_of_app (c1 c2 : list Item) : rows_of (c1 ++ c2) = rows_of c1 ++ rows_of c2.
Proof. apply omap_app. Qed.

Lemma csv_files_lookup (w : World) (f : string) :
  csv_files w !! f = rows_of <$> files w !! f.
Proof. apply lookup_fmap. Qed.

Lemma config_files_lookup (w : World) (f : string) :
  config_files w !! f = files w !! f ≫= config_of.
Proof. apply lookup_omap. Qed.


(** A world whose files are those of [w] but for [f], rewritten. *)
Lemma csv_files_insert (w w' : World) (f : string) (content : list Item) :
  files w' = <[f := content]> (files w) ->
  csv_files w' = <[f := rows_of content]> (csv_files w).
Proof. intros H. unfold csv_files. rewrite H. apply fmap_insert. Qed.

(** Writing a text that is not a JSON document where no file was leaves
    the configuration files as they were. *)
Lemma config_files_new (w w' : World) (f : string) (content : list Item) :
  files w' = <[f := content]> (files w) ->
  files w !! f = None -> config_of content = None ->
  config_files w' = config_files w.
Proof.
  intros H Habs Hdoc. unfold config_files. rewrite H, omap_insert_None by exact Hdoc.
  apply delete_id. rewrite lookup_omap, Habs. reflexivity.
Qed.

Lemma config_files_insert (w w' : World) (f : string) (c : Config) :
  files w' = <[f := [Doc c]]> (files w) ->
  config_files w' = <[f := c]> (config_files w).
Proof. intros H. unfold config_files. rewrite H. apply omap_insert_Some. reflexivity. Qed.

Lemma leftover_not_document (fields chars : nat) (row : Row) :
  config_of (leftover fields chars row) = None.
Proof. destruct fields, chars; reflexivity. Qed.

Lemma csv_rows_content (w : World) (f : string) :
  csv_rows w f = rows_of (default [] (files w !! f)).
Proof. unfold csv_rows. rewrite csv_files_lookup. destruct (files w !! f); reflexivity. Qed.

(** The lines a cut write leaves: at most one. *)
Lemma leftover_length (fields chars : nat) (row : Row) :
  (length (leftover fields chars row) <= 1)%nat.
Proof. destruct fields, chars; cbn; lia. Qed.

Section Blocks.

Variable env : Env.

Lemma write_to_csv_ok (self : Monitor) (row : Row) (w : World) :
  write_error env (steps w) (csv_file self) = None ->
  write_to_csv env self row w
  = (logged (CsvWrite (csv_file self) row)
       (with_file (csv_file self) (default [] (files w !! csv_file self) ++ [Line row])
          (asked w)), Ok tt).
Proof.
  intros Hopen. unfold write_to_csv, write_row. io_run. rewrite Hopen. reflexivity.
Qed.

Lemma write_to_csv_raise (self : Monitor) (row : Row) (w : World) (failure : write_failure) :
  write_error env (steps w) (csv_file self) = Some failure ->
  write_to_csv env self row w
  = (after_failed_write failure (csv_file self) row (asked w),
     Raise (failure_exn failure)).
Proof.
  intros Hopen. unfold write_to_csv, write_row. io_run. rewrite Hopen.
  destruct failure; reflexivity.
Qed.

(** The worksheet after an attempt to append, and what the attempt leaves
    in the history. *)
Lemma write_to_sheets_ok (self : Monitor) (row : Row) (w : World) (sheet_name : string) :
  gsheet self = Some sheet_name ->
  sheets_error env (steps w) = None ->
  write_to_sheets env self row w
  = (logged (SheetAppend sheet_name row)
       (with_sheet sheet_name (default [] (sheets w !! sheet_name) ++ [row]) (asked w)), Ok tt).
Proof.
  intros Hg Herr. unfold write_to_sheets, try_except, sheet_append_row, remote_call.
  rewrite Hg. io_run. rewrite Herr. reflexivity.
Qed.

Lemma write_to_sheets_failed (self : Monitor) (row : Row) (w : World) (sheet_name : string)
    (e : exn) :
  gsheet self = Some sheet_name ->
  sheets_error env (steps w) = Some e ->
  is_Exception e = true ->
  write_to_sheets env self row w = (logged (Print (ErrorWritingSheets e)) (asked w), Ok tt).
Proof.
  intros Hg Herr He. unfold write_to_sheets, try_except, sheet_append_row, remote_call.
  rewrite Hg. io_run. rewrite Herr. io_run. rewrite He. reflexivity.
Qed.

Lemma write_to_sheets_disabled (self : Monitor) (row : Row) (w : World) :
  gsheet self = None -> write_to_sheets env self row w = (w, Ok tt).
Proof. intros Hg. unfold write_to_sheets. rewrite Hg. reflexivity. Qed.

End Blocks.

Section RecordData.

Variable env : Env.

(** Up to the CSV write, [record_data] only reads the clock and the
    threshold set. *)
Lemma record_data_eq (self : Monitor) (market : Market) (y n : float) (w : World)
    (tp ts tr : float) :
  has_levels self tp ts tr ->
  record_data env self market y n w
  = (let row := observation_row (utcnow env (steps w)) market y n tp ts tr in
     (write_to_csv env self row : IO unit);;
     write_to_sheets env self row;;
     (if ltb (add y n) tp
      then print (ArbitrageFound (market_name market) (fmt4 y) (fmt4 n) (fmt4 (add y n))
                    (fmt4 (sub (lit 100 100) (add y n))))
      else mret tt);;
     mret (sub (lit 100 100) (add y n))) (asked w).
Proof.
  intros (tset & Hth & Hp & Hs & Ht). unfold record_data.
  rewrite Hth. rewrite bind_eq. cbn [ask]. cbn [getitem].
  rewrite bind_eq. cbn [mret IO_ret]. rewrite Hp. cbn [getitem].
  rewrite bind_eq. cbn [mret IO_ret]. rewrite Hs. cbn [getitem].
  rewrite bind_eq. cbn [mret IO_ret]. rewrite Ht. cbn [getitem].
  rewrite bind_eq. cbn [mret IO_ret]. reflexivity.
Qed.

(** A missing level makes [record_data] raise before anything is written. *)
Lemma record_data_missing_level (self : Monitor) (market : Market) (y n : float) (w : World)
    (tset : gmap string float) (level : string) :
  thresholds (config self) = Some tset ->
  level ∈ ["primary"; "secondary"; "tertiary"]%string ->
  tset !! level = None ->
  exists key, record_data env self market y n w = (asked w, Raise (KeyError key)).
Proof.
  intros Hth Hin Hnone. unfold record_data. rewrite Hth.
  rewrite bind_eq. cbn [ask getitem]. rewrite bind_eq. cbn [mret IO_ret].
  destruct (tset !! "primary"%string) as [tp |] eqn:Hp; [| eexists; reflexivity].
  cbn [getitem]. rewrite bind_eq. cbn [mret IO_ret].
  destruct (tset !! "secondary"%string) as [ts |] eqn:Hs; [| eexists; reflexivity].
  cbn [getitem]. rewrite bind_eq. cbn [mret IO_ret].
  destruct (tset !! "tertiary"%string) as [tr |] eqn:Ht; [| eexists; reflexivity].
  exfalso. set_unfold in Hin. destruct Hin as [-> | [-> | [-> | []]]]; congruence.
Qed.

(** The durable write succeeds and the mirror call is not interrupted:
    the whole effect of [record_data]. *)
Lemma record_data_ok (self : Monitor) (market : Market) (y n : float) (w : World)
    (tp ts tr : float) :
  has_levels self tp ts tr ->
  write_error env (S (steps w)) (csv_file self) = None ->
  (forall e, sheets_error env (S (S (steps w))) = Some e -> is_Exception e = true) ->
  let row := observation_row (utcnow env (steps w)) market y n tp ts tr in
  exists w',
    record_data env self market y n w = (w', Ok (sub (lit 100 100) (add y n))) /\
    files w' = <[csv_file self := default [] (files w !! csv_file self) ++ [Line row]]> (files w) /\
    csv_files w' = <[csv_file self := csv_rows w (csv_file self) ++ [row]]> (csv_files w) /\
    trace w' = trace w ++ CsvWrite (csv_file self) row
                 :: mirror_events env self row (S (S (steps w))) ++ alert_events market y n tp /\
    (steps w < steps w')%nat.
Proof.
  intros Hlv Hopen Hsheet row.
  rewrite (record_data_eq self market y n w tp ts tr Hlv). cbv zeta. fold row.
  rewrite bind_eq, write_to_csv_ok by exact Hopen.
  rewrite bind_eq. unfold mirror_events, alert_events.
  assert (forall w' : World,
             files w' = <[csv_file self := default [] (files w !! csv_file self) ++ [Line row]]>
                          (files w) ->
             csv_files w'
             = <[csv_file self := csv_rows w (csv_file self) ++ [row]]> (csv_files w)) as Hview.
  { intros w' Hfiles. rewrite (csv_files_insert w w' _ _ Hfiles), rows_of_app.
    rewrite <- csv_rows_content. reflexivity. }
  destruct (gsheet self) as [sheet_name |] eqn:Hg.
  - destruct (sheets_error env (S (S (steps w)))) as [e |] eqn:Herr.
    + erewrite write_to_sheets_failed; [| exact Hg | exact Herr | exact (Hsheet e eq_refl)].
      destruct (ltb (add y n) tp); eexists; (split; [reflexivity |]);
        (split; [reflexivity |]); (split; [apply Hview; reflexivity |]); cbn;
        rewrite <- ?app_assoc; repeat split; try reflexivity; lia.
    + erewrite write_to_sheets_ok; [| exact Hg | exact Herr].
      destruct (ltb (add y n) tp); eexists; (split; [reflexivity |]);
        (split; [reflexivity |]); (split; [apply Hview; reflexivity |]); cbn;
        rewrite <- ?app_assoc; repeat split; try reflexivity; lia.
  - rewrite (write_to_sheets_disabled env self row _ Hg).
    destruct (ltb (add y n) tp); eexists; (split; [reflexivity |]);
      (split; [reflexivity |]); (split; [apply Hview; reflexivity |]); cbn;
      rewrite <- ?app_assoc; repeat split; try reflexivity; lia.
Qed.

(** The durable write raises: the error leaves [record_data] at once,
    with nothing sent to the mirror and nothing printed. *)
Lemma record_data_csv_raise (self : Monitor) (market : Market) (y n : float) (w : World)
    (tp ts tr : float) (failure : write_failure) :
  has_levels self tp ts tr ->
  write_error env (S (steps w)) (csv_file self) = Some failure ->
  record_data env self market y n w
  = (after_failed_write failure (csv_file self)
       (observation_row (utcnow env (steps w)) market y n tp ts tr) (asked (asked w)),
     Raise (failure_exn failure)).
Proof.
  intros Hlv Hopen.
  rewrite (record_data_eq self market y n w tp ts tr Hlv). cbv zeta.
  rewrite bind_eq, (write_to_csv_raise env self _ (asked w) failure) by exact Hopen.
  reflexivity.
Qed.

End RecordData.

Section Evaluation.

Variable env : Env.

Lemma csv_rows_insert (w w' : World) (f : string) (rows : list Row) :
  csv_files w' = <[f := rows]> (csv_files w) -> csv_rows w' f = rows.
Proof. intros H. unfold csv_rows. rewrite H, lookup_insert_eq. reflexivity. Qed.

(** C1, as amended: for every price pair and every threshold set that
    defines the levels primary, secondary and tertiary, [record_data]
    appends one record to the CSV file; its YES_Price, NO_Price, Sum and
    Gap_From_One fields are [y], [n], [y + n] and [1.00 - (y + n)] rounded
    to 4 decimal places, and its three booleans are [y + n < ceiling] for
    the three levels, compared on the unrounded sum. *)
Theorem record_data_observation (self : Monitor) (market : Market) (y n : float)
    (w : World) (tp ts tr : float) :
  has_levels self tp ts tr ->
  write_error env (S (steps w)) (csv_file self) = None ->
  (forall e, sheets_error env (S (S (steps w))) = Some e -> is_Exception e = true) ->
  exists w' row,
    record_data env self market y n w = (w', Ok (sub (lit 100 100) (add y n))) /\
    csv_rows w' (csv_file self) = csv_rows w (csv_file self) ++ [row] /\
    (exists s, column "YES_Price" row = Some s /\ written_rounded4 y s) /\
    (exists s, column "NO_Price" row = Some s /\ written_rounded4 n s) /\
    (exists s, column "Sum" row = Some s /\ written_rounded4 (add y n) s) /\
    (exists s, column "Gap_From_One" row = Some s /\
               written_rounded4 (sub (lit 100 100) (add y n)) s) /\
    column "Below_1.00" row = Some (yes_no (ltb (add y n) tp)) /\
    column "Below_0.95" row = Some (yes_no (ltb (add y n) ts)) /\
    column "Below_0.90" row = Some (yes_no (ltb (add y n) tr)).
Proof.
  intros Hlv Hopen Hsheet.
  destruct (record_data_ok env self market y n w tp ts tr Hlv Hopen Hsheet)
    as (w' & Hrun & _ & Hcsv & _ & _).
  exists w', (observation_row (utcnow env (steps w)) market y n tp ts tr).
  split; [exact Hrun |].
  split; [exact (csv_rows_insert _ _ _ _ Hcsv) |].
  repeat split; try reflexivity;
    eexists; (split; [reflexivity | apply fmt4_written]).
Qed.

End Evaluation.

Lemma default_levels_has (ms : list Market) (g : option string) :
  has_levels (sample_monitor ms default_levels g) (lit 100 100) (lit 95 100) (lit 90 100).
Proof. exists default_levels. repeat split. Qed.

Lemma record_data_observation_witness :
  has_levels (sample_monitor [] default_levels None) (lit 100 100) (lit 95 100) (lit 90 100) /\
  write_error quiet_env 1 "arbitrage_data.csv" = None /\
  exists w' row,
    record_data quiet_env (sample_monitor [] default_levels None) (sample_market "A")
      (lit 46 100) (lit 50 100) empty_world
    = (w', Ok (sub (lit 100 100) (add (lit 46 100) (lit 50 100)))) /\
    csv_rows w' "arbitrage_data.csv" = [row].
Proof.
  split; [apply default_levels_has |]. split; [reflexivity |].
  destruct (record_data_observation quiet_env (sample_monitor [] default_levels None)
              (sample_market "A") (lit 46 100) (lit 50 100) empty_world
              (lit 100 100) (lit 95 100) (lit 90 100))
    as (w' & row & Hrun & Hrows & _).
  - apply default_levels_has.
  - reflexivity.
  - intros e H. discriminate H.
  - exists w', row. split; [exact Hrun | exact Hrows].
Defined.

(** C1 as stated fails: with a threshold set that has the single level
    primary, [record_data] raises [KeyError] and produces no record. *)
Lemma single_level_not_evaluated :
  ~ evaluates_every_level quiet_env (sample_monitor [] primary_only None)
      (sample_market "A") (lit 46 100) (lit 50 100) empty_world.
Proof.
  intros (w' & gap & row & tset & Hrun & _).
  vm_compute in Hrun. discriminate Hrun.
Qed.

(** The comparison reads the raw sum: 0.99996 + 0.0 is written as 1.0000 and
    still counted as below the ceiling 1.00. *)
Example raw_sum_is_compared :
  let row := observation_row "t" (sample_market "A") (lit 99996 100000) (S754_zero false)
               (lit 100 100) (lit 95 100) (lit 90 100) in
  column "Sum" row = Some "1.0000"%string /\ column "Below_1.00" row = Some "YES"%string.
Proof. vm_compute. split; reflexivity. Qed.

Section Scenario.

Variable env : Env.

(** C7: with the thresholds primary 1.00, secondary 0.95 and tertiary
    0.90, the pair (0.46, 0.50) is recorded with sum 0.9600, gap 0.0400 and
    the booleans YES, NO, NO; the pair (0.51, 0.51) with sum 1.0200, gap
    -0.0200 and the booleans NO, NO, NO. *)
Theorem concrete_scenario (self : Monitor) (market : Market) (w : World) :
  has_levels self (lit 100 100) (lit 95 100) (lit 90 100) ->
  write_error env (S (steps w)) (csv_file self) = None ->
  (forall e, sheets_error env (S (S (steps w))) = Some e -> is_Exception e = true) ->
  (exists w' gap,
      record_data env self market (lit 46 100) (lit 50 100) w = (w', Ok gap) /\
      fmt4 gap = "0.0400"%string /\
      csv_rows w' (csv_file self)
      = csv_rows w (csv_file self)
          ++ [[ utcnow env (steps w); market_id market; market_name market;
                "0.4600"; "0.5000"; "0.9600"; "0.0400"; "YES"; "NO"; "NO" ]%string]) /\
  (exists w' gap,
      record_data env self market (lit 51 100) (lit 51 100) w = (w', Ok gap) /\
      fmt4 gap = "-0.0200"%string /\
      csv_rows w' (csv_file self)
      = csv_rows w (csv_file self)
          ++ [[ utcnow env (steps w); market_id market; market_name market;
                "0.5100"; "0.5100"; "1.0200"; "-0.0200"; "NO"; "NO"; "NO" ]%string]).
Proof.
  intros Hlv Hopen Hsheet. split.
  - destruct (record_data_ok env self market (lit 46 100) (lit 50 100) w _ _ _
                Hlv Hopen Hsheet) as (w' & Hrun & _ & Hcsv & _ & _).
    exists w', (sub (lit 100 100) (add (lit 46 100) (lit 50 100))).
    split; [exact Hrun |]. split; [vm_compute; reflexivity |].
    rewrite (csv_rows_insert _ _ _ _ Hcsv). reflexivity.
  - destruct (record_data_ok env self market (lit 51 100) (lit 51 100) w _ _ _
                Hlv Hopen Hsheet) as (w' & Hrun & _ & Hcsv & _ & _).
    exists w', (sub (lit 100 100) (add (lit 51 100) (lit 51 100))).
    split; [exact Hrun |]. split; [vm_compute; reflexivity |].
    rewrite (csv_rows_insert _ _ _ _ Hcsv). reflexivity.
Qed.

Variable env' : Env.

(** C8: evaluation is deterministic.  Two evaluations of the same pair,
    levels, market and timestamp, in any two states of the world, under
    any two environments, return the same gap and append the same record. *)
Theorem evaluation_deterministic (self self' : Monitor) (market : Market) (y n : float)
    (w w' : World) (tp ts tr : float) :
  has_levels self tp ts tr ->
  has_levels self' tp ts tr ->
  utcnow env (steps w) = utcnow env' (steps w') ->
  write_error env (S (steps w)) (csv_file self) = None ->
  write_error env' (S (steps w')) (csv_file self') = None ->
  (forall e, sheets_error env (S (S (steps w))) = Some e -> is_Exception e = true) ->
  (forall e, sheets_error env' (S (S (steps w'))) = Some e -> is_Exception e = true) ->
  exists w1 w1' gap row,
    record_data env self market y n w = (w1, Ok gap) /\
    record_data env' self' market y n w' = (w1', Ok gap) /\
    csv_rows w1 (csv_file self) = csv_rows w (csv_file self) ++ [row] /\
    csv_rows w1' (csv_file self') = csv_rows w' (csv_file self') ++ [row].
Proof.
  intros Hlv Hlv' Hclock Hopen Hopen' Hsheet Hsheet'.
  destruct (record_data_ok env self market y n w tp ts tr Hlv Hopen Hsheet)
    as (w1 & Hrun & _ & Hcsv & _ & _).
  destruct (record_data_ok env' self' market y n w' tp ts tr Hlv' Hopen' Hsheet')
    as (w1' & Hrun' & _ & Hcsv' & _ & _).
  exists w1, w1', (sub (lit 100 100) (add y n)),
    (observation_row (utcnow env (steps w)) market y n tp ts tr).
  split; [exact Hrun |]. split; [exact Hrun' |].
  split; [exact (csv_rows_insert _ _ _ _ Hcsv) |].
  rewrite Hclock. exact (csv_rows_insert _ _ _ _ Hcsv').
Qed.

End Scenario.

(** ** The scheduler *)

Section Scheduler.

Variable env : Env.
Variable self : Monitor.

Lemma fetch_market_prices_eq (market : Market) (w : World) :
  fetch_market_prices env market w
  = match price_request env (steps w) market with
    | inr (y, n) => (asked w, Ok (Some y, Some n))
    | inl e =>
        if is_Exception e
        then (logged (Print (ErrorFetching (market_name market) e)) (asked w), Ok (None, None))
        else (asked w, Raise e)
    end.
Proof.
  unfold fetch_market_prices, try_except. rewrite bind_eq. cbn [ask].
  destruct (price_request env (steps w) market) as [e | [y n]]; [| reflexivity].
  cbn. destruct (is_Exception e); reflexivity.
Qed.

Lemma poll_markets_app (ms1 ms2 : list Market) (w : World) :
  poll_markets env self (ms1 ++ ms2) w
  = match poll_markets env self ms1 w with
    | (w1, Ok _) => poll_markets env self ms2 w1
    | (w1, Raise e) => (w1, Raise e)
    end.
Proof.
  revert w. induction ms1 as [| m ms1 IH]; intros w; [reflexivity |].
  cbn [app poll_markets]. rewrite !bind_eq.
  destruct (poll_market env self m w) as [w1 [[] | e]]; [apply IH | reflexivity].
Qed.

Lemma handle_prices_unfetched (market : Market) (yp np : option float) (w : World) :
  yp = None \/ np = None ->
  handle_prices env self market (yp, np) w
  = (logged (Print (FailedToFetch (market_name market))) w, Ok tt).
Proof.
  intros [-> | ->]; [reflexivity |]. destruct yp; reflexivity.
Qed.

Lemma failure_lines_mirror (row : Row) (i : nat) :
  failure_lines (mirror_events env self row i) = [].
Proof.
  unfold mirror_events. destruct (gsheet self); [| reflexivity].
  destruct (sheets_error env i); reflexivity.
Qed.

Lemma failure_lines_alert (market : Market) (y n tp : float) :
  failure_lines (alert_events market y n tp) = [].
Proof. unfold alert_events. destruct (ltb (add y n) tp); reflexivity. Qed.

Section Levels.

Variables tp ts tr : float.
Hypothesis Hlevels : has_levels self tp ts tr.
Hypothesis Hopen : files_open env.
Hypothesis Hquiet : no_interrupts env.

(** A fetched pair is recorded: one more row, no failure line. *)
Lemma handle_prices_recorded (market : Market) (y n : float) (w : World) :
  exists w' evs,
    handle_prices env self market (Some y, Some n) w = (w', Ok tt) /\
    csv_rows w' (csv_file self)
    = csv_rows w (csv_file self)
        ++ [observation_row (utcnow env (steps w)) market y n tp ts tr] /\
    trace w' = trace w ++ evs /\
    failure_lines evs = [].
Proof.
  destruct Hquiet as (_ & Hsheets & _).
  destruct (record_data_ok env self market y n w tp ts tr Hlevels (Hopen _ _)
              (Hsheets _)) as (w1 & Hrun & _ & Hcsv & Htrace & _).
  unfold handle_prices. rewrite bind_eq, Hrun.
  eexists _, _. split; [reflexivity |]. cbn. split; [| split].
  - exact (csv_rows_insert _ _ _ _ Hcsv).
  - rewrite Htrace, <- app_assoc. reflexivity.
  - unfold failure_lines. cbn [app List.filter is_failure_line].
    rewrite !List.filter_app. fold (failure_lines (mirror_events env self
      (observation_row (utcnow env (steps w)) market y n tp ts tr) (S (S (steps w))))).
    fold (failure_lines (alert_events market y n tp)).
    rewrite failure_lines_mirror, failure_lines_alert. reflexivity.
Qed.

(** A market whose request answers yields its record. *)
Lemma poll_market_recorded (market : Market) (w : World) :
  answers env market ->
  exists w' row evs,
    poll_market env self market w = (w', Ok tt) /\
    csv_rows w' (csv_file self) = csv_rows w (csv_file self) ++ [row] /\
    column "Market_ID" row = Some (market_id market) /\
    trace w' = trace w ++ evs /\
    failure_lines evs = [].
Proof.
  intros Hans. destruct (Hans (steps w)) as (y & n & Hreq).
  unfold poll_market. rewrite bind_eq, fetch_market_prices_eq, Hreq.
  destruct (handle_prices_recorded market y n (asked w)) as (w' & evs & Hrun & Hcsv & Htr & Hfl).
  exists w', (observation_row (utcnow env (S (steps w))) market y n tp ts tr), evs.
  repeat split; assumption || reflexivity.
Qed.

(** A market whose request fails leaves two lines and nothing else. *)
Lemma poll_market_failed (market : Market) (w : World) (e : exn) :
  price_request env (steps w) market = inl e ->
  poll_market env self market w
  = (logged (Print (FailedToFetch (market_name market)))
       (logged (Print (ErrorFetching (market_name market) e)) (asked w)), Ok tt).
Proof.
  intros Hreq. destruct Hquiet as (Hfetch & _ & _).
  unfold poll_market. rewrite bind_eq, fetch_market_prices_eq, Hreq.
  rewrite (Hfetch _ _ _ Hreq). reflexivity.
Qed.

(** Markets that all answer are all recorded, in order. *)
Lemma poll_markets_recorded (ms : list Market) (w : World) :
  Forall (answers env) ms ->
  exists w' rows evs,
    poll_markets env self ms w = (w', Ok tt) /\
    csv_rows w' (csv_file self) = csv_rows w (csv_file self) ++ rows /\
    Forall2 (fun row m => column "Market_ID" row = Some (market_id m)) rows ms /\
    trace w' = trace w ++ evs /\
    failure_lines evs = [].
Proof.
  intros Hall. revert w. induction Hall as [| m ms Hm Hms IH]; intros w.
  - exists w, [], []. rewrite !app_nil_r. repeat split. constructor.
  - destruct (poll_market_recorded m w Hm) as (w1 & row & evs1 & Hrun1 & Hcsv1 & Hid & Htr1 & Hfl1).
    destruct (IH w1) as (w2 & rows & evs2 & Hrun2 & Hcsv2 & Hids & Htr2 & Hfl2).
    exists w2, (row :: rows), (evs1 ++ evs2).
    cbn [poll_markets]. rewrite bind_eq, Hrun1, Hrun2.
    split; [reflexivity |]. split; [| split; [| split]].
    + rewrite Hcsv2, Hcsv1, <- app_assoc. reflexivity.
    + constructor; assumption.
    + rewrite Htr2, Htr1, <- app_assoc. reflexivity.
    + unfold failure_lines in *. rewrite List.filter_app, Hfl1, Hfl2. reflexivity.
Qed.

(** Whatever the requests answer, a tick goes over all its markets. *)
Lemma poll_markets_total (ms : list Market) (w : World) :
  exists w', poll_markets env self ms w = (w', Ok tt).
Proof.
  revert w. induction ms as [| m ms IH]; intros w; [eexists; reflexivity |].
  cbn [poll_markets]. rewrite bind_eq.
  destruct (price_request env (steps w) m) as [e | [y n]] eqn:Hreq.
  - rewrite (poll_market_failed m w e Hreq). apply IH.
  - unfold poll_market. rewrite bind_eq, fetch_market_prices_eq, Hreq.
    destruct (handle_prices_recorded m y n (asked w)) as (w1 & evs & -> & _).
    apply IH.
Qed.

Variable ms : list Market.
Variable seconds : Z.
Hypothesis Hmarkets : markets (config self) = Some ms.
Hypothesis Hinterval : polling_interval_seconds (config self) = Some seconds.
Hypothesis Hseconds : 0 <= seconds.

(** A tick is the iteration line, the pass over the markets, and the
    sleep. *)
Lemma tick_eq (it : nat) (w : World) :
  tick env self it w
  = match poll_markets env self ms
            (logged (Print (Iteration it (utcnow env (steps w)))) (asked w)) with
    | (w1, Ok _) => (asked (logged (Sleep seconds) w1), Ok tt)
    | (w1, Raise e) => (w1, Raise e)
    end.
Proof.
  destruct Hquiet as (_ & _ & Hsleep).
  unfold tick. rewrite Hmarkets, Hinterval. rewrite bind_eq. cbn [ask].
  rewrite bind_eq. cbn [print emit]. cbn [getitem]. rewrite bind_eq. cbn [mret IO_ret].
  rewrite bind_eq.
  destruct (poll_markets env self ms _) as [w1 [[] | e]]; [| reflexivity].
  rewrite bind_eq. cbn [mret IO_ret]. unfold sleep.
  destruct (Z.ltb_spec seconds 0) as [Hneg | _]; [lia |].
  rewrite bind_eq. cbn [emit]. rewrite bind_eq. cbn [ask steps logged].
  rewrite Hsleep. reflexivity.
Qed.

Lemma tick_total (it : nat) (w : World) :
  exists w1,
    poll_markets env self ms (logged (Print (Iteration it (utcnow env (steps w)))) (asked w))
    = (w1, Ok tt) /\
    tick env self it w = (asked (logged (Sleep seconds) w1), Ok tt).
Proof.
  destruct (poll_markets_total ms
              (logged (Print (Iteration it (utcnow env (steps w)))) (asked w)))
    as (w1 & Hrun).
  exists w1. split; [exact Hrun |]. rewrite tick_eq, Hrun. reflexivity.
Qed.

(** The loop keeps running, turn after turn. *)
Lemma loop_total (fuel it : nat) (w : World) :
  exists w', loop env self fuel it w = (w', Ok Running).
Proof.
  revert it w. induction fuel as [| fuel IH]; intros it w; [eexists; reflexivity |].
  cbn [loop]. rewrite bind_eq.
  destruct (tick_total (S it) w) as (w1 & _ & ->). apply IH.
Qed.

(** When every market answers, the log grows by one row per market and
    per turn. *)
Lemma loop_recorded (fuel it : nat) (w : World) :
  Forall (answers env) ms ->
  exists w' rows,
    loop env self fuel it w = (w', Ok Running) /\
    csv_rows w' (csv_file self) = csv_rows w (csv_file self) ++ rows /\
    length rows = (fuel * length ms)%nat.
Proof.
  intros Hall. revert it w. induction fuel as [| fuel IH]; intros it w.
  - exists w, []. rewrite app_nil_r. repeat split.
  - cbn [loop]. rewrite bind_eq, tick_eq.
    destruct (poll_markets_recorded ms
                (logged (Print (Iteration (S it) (utcnow env (steps w)))) (asked w)) Hall)
      as (w1 & rows1 & evs & -> & Hcsv1 & Hids & _).
    destruct (IH (S it) (asked (logged (Sleep seconds) w1))) as (w2 & rows2 & -> & Hcsv2 & Hlen).
    exists w2, (rows1 ++ rows2). split; [reflexivity |]. split.
    + rewrite Hcsv2. change (csv_rows (asked (logged (Sleep seconds) w1)) (csv_file self))
        with (csv_rows w1 (csv_file self)).
      rewrite Hcsv1, <- app_assoc. reflexivity.
    + rewrite length_app, Hlen, (Forall2_length _ _ _ Hids). cbn. lia.
Qed.

(** [monitor_markets] is its banner followed by the loop. *)
Lemma monitor_markets_eq (w : World) :
  exists wb,
    csv_files wb = csv_files w /\ steps wb = steps w /\
    forall fuel,
      monitor_markets env self fuel w
      = try_except (loop env self fuel 0) is_KeyboardInterrupt
          (fun _ =>
             print Rule;; print StoppedByUser;; print (DataSavedTo (csv_file self));;
             (if bool_decide (is_Some (gsheet self)) then print SheetsUpdated else mret tt);;
             print Rule;; mret Returned) wb.
Proof.
  unfold monitor_markets. rewrite Hmarkets, Hinterval.
  destruct (bool_decide (is_Some (gsheet self))); eexists; (split; [| split]);
    [| | intros fuel; io_run; reflexivity | | | intros fuel; io_run; reflexivity];
    reflexivity.
Qed.

(** A pass that raises ends the tick, the loop and [monitor_markets],
    unless it is the interrupt. *)
Lemma tick_raise (it : nat) (w w1 : World) (e : exn) :
  poll_markets env self ms (logged (Print (Iteration it (utcnow env (steps w)))) (asked w))
  = (w1, Raise e) ->
  tick env self it w = (w1, Raise e).
Proof.
  intros Hrun. unfold tick. rewrite Hmarkets. rewrite bind_eq. cbn [ask].
  rewrite bind_eq. cbn [print emit getitem]. rewrite bind_eq. cbn [mret IO_ret].
  rewrite bind_eq, Hrun. reflexivity.
Qed.

Lemma loop_app (k n it : nat) (w : World) :
  loop env self (k + n) it w
  = match loop env self k it w with
    | (w', Ok Running) => loop env self n (k + it) w'
    | r => r
    end.
Proof.
  revert it w. induction k as [| k IH]; intros it w; [reflexivity |].
  cbn [Nat.add loop]. rewrite !bind_eq.
  destruct (tick env self (S it) w) as [w1 [[] | e]]; [| reflexivity].
  rewrite IH. replace (k + S it)%nat with (S (k + it)) by lia. reflexivity.
Qed.

Lemma loop_never_returns (fuel it : nat) (w w' : World) :
  loop env self fuel it w <> (w', Ok Returned).
Proof.
  revert it w. induction fuel as [| fuel IH]; intros it w; [discriminate |].
  cbn [loop]. rewrite bind_eq.
  destruct (tick env self (S it) w) as [w1 [[] | e]]; [apply IH | discriminate].
Qed.

(** C3: the fan-out writes the CSV file first and the worksheet second,
    and what the mirror does, be it a failure on every call, changes
    neither the row appended to the CSV file nor the return of
    [record_data]; the scheduler keeps running, and when every market
    answers the log gains one row per market and per turn. *)
Theorem mirror_isolation :
  (forall market y n w,
      let row := observation_row (utcnow env (steps w)) market y n tp ts tr in
      exists w',
        record_data env self market y n w = (w', Ok (sub (lit 100 100) (add y n))) /\
        csv_rows w' (csv_file self) = csv_rows w (csv_file self) ++ [row] /\
        trace w' = trace w ++ CsvWrite (csv_file self) row
                     :: mirror_events env self row (S (S (steps w)))
                     ++ alert_events market y n tp) /\
  (forall fuel w, exists w', monitor_markets env self fuel w = (w', Ok Running)) /\
  (Forall (answers env) ms ->
   forall fuel w, exists w' rows,
       monitor_markets env self fuel w = (w', Ok Running) /\
       csv_rows w' (csv_file self) = csv_rows w (csv_file self) ++ rows /\
       length rows = (fuel * length ms)%nat).
Proof.
  split; [| split].
  - intros market y n w row.
    destruct (record_data_ok env self market y n w tp ts tr Hlevels (Hopen _ _)
                (proj1 (proj2 Hquiet) _)) as (w' & Hrun & _ & Hcsv & Htrace & _).
    exists w'. split; [exact Hrun |].
    split; [exact (csv_rows_insert _ _ _ _ Hcsv) | exact Htrace].
  - intros fuel w. destruct (monitor_markets_eq w) as (wb & _ & _ & ->).
    destruct (loop_total fuel 0 wb) as (w' & Hrun).
    exists w'. unfold try_except. rewrite Hrun. reflexivity.
  - intros Hall fuel w. destruct (monitor_markets_eq w) as (wb & Hcsv & _ & ->).
    destruct (loop_recorded fuel 0 wb Hall) as (w' & rows & Hrun & Hrows & Hlen).
    exists w', rows. unfold try_except. rewrite Hrun.
    split; [reflexivity |]. split; [| exact Hlen].
    rewrite Hrows. unfold csv_rows. rewrite Hcsv. reflexivity.
Qed.

(** C5, as amended: when the request of one market [b] fails in a tick
    and the other markets answer, every other market still gets its
    record, in order; the failing market leaves two failure lines, one
    printed by [fetch_market_prices] with the reason and one by the
    scheduler, both carrying the market's display name; the tick goes
    over all the markets and ends with the sleep of the configured
    interval, after which the next turn begins. *)
Theorem fault_isolation (pre post : list Market) (b : Market) (e : exn)
    (it : nat) (w : World) :
  ms = pre ++ b :: post ->
  Forall (answers env) pre ->
  Forall (answers env) post ->
  (forall i, price_request env i b = inl e) ->
  exists w' rows evs,
    tick env self (S it) w = (w', Ok tt) /\
    csv_rows w' (csv_file self) = csv_rows w (csv_file self) ++ rows /\
    Forall2 (fun row m => column "Market_ID" row = Some (market_id m)) rows (pre ++ post) /\
    trace w' = trace w ++ evs ++ [Sleep seconds] /\
    failure_lines evs = [ Print (ErrorFetching (market_name b) e);
                          Print (FailedToFetch (market_name b)) ] /\
    forall fuel, loop env self (S fuel) it w = loop env self fuel (S it) w'.
Proof.
  intros Hms Hpre Hpost Hb.
  pose proof (tick_eq (S it) w) as Htick. rewrite Hms, poll_markets_app in Htick.
  set (w0 := logged (Print (Iteration (S it) (utcnow env (steps w)))) (asked w)) in *.
  destruct (poll_markets_recorded pre w0 Hpre)
    as (w1 & rows1 & evs1 & Hrun1 & Hcsv1 & Hids1 & Htr1 & Hfl1).
  rewrite Hrun1 in Htick. cbn [poll_markets] in Htick.
  rewrite bind_eq, (poll_market_failed b w1 e (Hb _)) in Htick.
  set (w2 := logged (Print (FailedToFetch (market_name b))) _) in *.
  destruct (poll_markets_recorded post w2 Hpost)
    as (w3 & rows3 & evs3 & Hrun3 & Hcsv3 & Hids3 & Htr3 & Hfl3).
  rewrite Hrun3 in Htick.
  exists (asked (logged (Sleep seconds) w3)), (rows1 ++ rows3),
    (Print (Iteration (S it) (utcnow env (steps w))) :: evs1
       ++ [Print (ErrorFetching (market_name b) e); Print (FailedToFetch (market_name b))]
       ++ evs3).
  split; [exact Htick |]. split; [| split; [| split; [| split]]].
  - change (csv_rows (asked (logged (Sleep seconds) w3)) (csv_file self))
      with (csv_rows w3 (csv_file self)).
    rewrite Hcsv3. change (csv_rows w2 (csv_file self)) with (csv_rows w1 (csv_file self)).
    rewrite Hcsv1, <- app_assoc. reflexivity.
  - apply Forall2_app; assumption.
  - cbn [trace asked logged]. rewrite Htr3. subst w2. cbn [trace asked logged].
    rewrite Htr1. subst w0. cbn [trace asked logged].
    rewrite <- !app_assoc. cbn [app]. rewrite <- !app_assoc. reflexivity.
  - unfold failure_lines in *. cbn [List.filter is_failure_line].
    rewrite !List.filter_app, Hfl1, Hfl3. reflexivity.
  - intros fuel. cbn [loop]. rewrite bind_eq, Htick. reflexivity.
Qed.

(** C2, as amended: when the durable write raises an [Exception] for a
    market, after [k] turns of the loop and a pass over the markets before
    it, whether the open is refused or the write fails once the file is
    open, [record_data] raises the error: nothing is sent to the mirror
    and nothing is printed for that market, and the CSV file keeps its
    rows, followed by what the write left of the new one; the remaining
    markets are not polled and the error leaves [monitor_markets], whose
    only handler is for the interrupt: the failure is surfaced by ending
    the loop. *)
Theorem durable_failure_propagates (pre post : list Market) (m : Market) (y n : float)
    (failure : write_failure) (k : nat) (w0 w w1 : World) :
  ms = pre ++ m :: post ->
  monitor_markets env self k w0 = (w, Ok Running) ->
  poll_markets env self pre (logged (Print (Iteration (S k) (utcnow env (steps w)))) (asked w))
  = (w1, Ok tt) ->
  price_request env (steps w1) m = inr (y, n) ->
  write_error env (S (S (steps w1))) (csv_file self) = Some failure ->
  is_Exception (failure_exn failure) = true ->
  let row := observation_row (utcnow env (S (steps w1))) m y n tp ts tr in
  let w2 := after_failed_write failure (csv_file self) row (asked (asked (asked w1))) in
  record_data env self m y n (asked w1) = (w2, Raise (failure_exn failure)) /\
  sheets w2 = sheets w1 /\
  trace w2 = trace w1 /\
  csv_rows w2 (csv_file self)
  = csv_rows w1 (csv_file self) ++ rows_of (left_on_disk failure row) /\
  forall fuel,
    monitor_markets env self (k + S fuel) w0
    = (w2, Raise (failure_exn failure)).
Proof.
  intros Hms Hprev Hpre Hreq Hopen' Hexn row w2.
  assert (record_data env self m y n (asked w1)
          = (w2, Raise (failure_exn failure))) as Hrec
    by (apply (record_data_csv_raise env self m y n (asked w1) tp ts tr failure Hlevels);
        exact Hopen').
  split; [exact Hrec |].
  split; [subst w2; destruct failure; reflexivity |].
  split; [subst w2; destruct failure; reflexivity |].
  split.
  { subst w2. destruct failure as [e | e fields chars | e]; cbn [after_failed_write].
    - rewrite app_nil_r. reflexivity.
    - rewrite !csv_rows_content. cbn [files with_file asked].
      rewrite lookup_insert_eq. cbn [default from_option id]. apply rows_of_app.
    - rewrite !csv_rows_content. cbn [files with_file asked].
      rewrite lookup_insert_eq. cbn [default from_option id]. apply rows_of_app. }
  intros fuel.
  destruct (monitor_markets_eq w0) as (wb & _ & _ & Hmon).
  rewrite Hmon in Hprev. rewrite Hmon. unfold try_except in *.
  rewrite loop_app.
  destruct (loop env self k 0 wb) as [wk [[] | e]] eqn:Hk.
  - injection Hprev as ->. cbn [loop]. rewrite bind_eq.
    replace (k + 0)%nat with k by lia.
    rewrite (tick_raise (S k) w w2 (failure_exn failure));
      [unfold is_KeyboardInterrupt; rewrite Hexn; reflexivity |].
    rewrite Hms, poll_markets_app, Hpre. cbn [poll_markets].
    rewrite bind_eq. unfold poll_market.
    rewrite bind_eq, fetch_market_prices_eq, Hreq.
    unfold handle_prices. rewrite bind_eq, Hrec. reflexivity.
  - exfalso. exact (loop_never_returns k 0 wb wk Hk).
  - destruct (is_KeyboardInterrupt e); [| discriminate].
    revert Hprev. io_run. destruct (bool_decide (is_Some (gsheet self))); discriminate.
Qed.

End Levels.

End Scheduler.

(** ** Failures at the boundaries *)

Section Boundaries.

Variable env : Env.
Variable self : Monitor.

(** C9, as amended: for a market entry that carries its name,
    [fetch_market_prices] never lets an [Exception] through.  When the
    request fails with an [Exception], the error is printed and the pair
    [(None, None)] is returned; what is not an [Exception], the interrupt
    signal, is not caught and reaches the caller. *)
Theorem fetch_contains_failures (market : Market) (w : World) :
  (forall w' e, fetch_market_prices env market w = (w', Raise e) -> is_Exception e = false) /\
  (forall e, price_request env (steps w) market = inl e -> is_Exception e = true ->
             fetch_market_prices env market w
             = (logged (Print (ErrorFetching (market_name market) e)) (asked w),
                Ok (None, None))) /\
  (forall e, price_request env (steps w) market = inl e -> is_Exception e = false ->
             fetch_market_prices env market w = (asked w, Raise e)).
Proof.
  rewrite fetch_market_prices_eq. split; [| split].
  - intros w' e. destruct (price_request env (steps w) market) as [e0 | [y n]];
      [| discriminate].
    destruct (is_Exception e0) eqn:He0; [discriminate |].
    intros [= _ <-]. exact He0.
  - intros e -> ->. reflexivity.
  - intros e -> ->. reflexivity.
Qed.

(** C10: a pair with [None] for either price is not recorded.  The
    scheduler prints the failure line and nothing else: the CSV files and
    the worksheets are as they were before that market's turn, no alert is
    printed, and the pass goes on with the next market. *)
Theorem unfetched_market_skipped (market : Market) (yp np : option float) :
  yp = None \/ np = None ->
  (forall w, handle_prices env self market (yp, np) w
             = (logged (Print (FailedToFetch (market_name market))) w, Ok tt)) /\
  (forall w0 w rest,
      fetch_market_prices env market w0 = (w, Ok (yp, np)) ->
      let w' := logged (Print (FailedToFetch (market_name market))) w in
      poll_markets env self (market :: rest) w0 = poll_markets env self rest w' /\
      csv_files w' = csv_files w0 /\
      sheets w' = sheets w0 /\
      exists evs, trace w' = trace w0 ++ evs /\ failure_lines evs = evs).
Proof.
  intros Hnone. split.
  - intros w. apply handle_prices_unfetched. exact Hnone.
  - intros w0 w rest Hfetch w'. split.
    + cbn [poll_markets]. unfold poll_market. rewrite !bind_eq, Hfetch.
      rewrite (handle_prices_unfetched env self market yp np w Hnone). reflexivity.
    + rewrite fetch_market_prices_eq in Hfetch.
      destruct (price_request env (steps w0) market) as [e | [y n]].
      * destruct (is_Exception e); [| discriminate]. injection Hfetch as <- _ _.
        repeat split.
        exists [Print (ErrorFetching (market_name market) e);
                Print (FailedToFetch (market_name market))].
        split; [| reflexivity]. subst w'. cbn. rewrite <- app_assoc. reflexivity.
      * injection Hfetch as <- _ _. repeat split.
        exists [Print (FailedToFetch (market_name market))]. split; reflexivity.
Qed.

End Boundaries.

(** ** The durable log across restarts *)

Section Keeps.

Context {Q : gmap string (list Item) -> Prop}.

Lemma keeps_bind {A B} (m : IO A) (f : A -> IO B) :
  keeps Q m -> (forall a, keeps Q (f a)) -> keeps Q (m ≫= f).
Proof.
  intros Hm Hf w HQ. rewrite bind_eq. specialize (Hm w HQ).
  destruct (m w) as [w1 [a | e]]; [apply Hf |]; exact Hm.
Qed.

Lemma keeps_try {A} (body : IO A) (catches : exn -> bool) (handler : exn -> IO A) :
  keeps Q body -> (forall e, keeps Q (handler e)) -> keeps Q (try_except body catches handler).
Proof.
  intros Hb Hh w HQ. unfold try_except. specialize (Hb w HQ).
  destruct (body w) as [w1 [a | e]]; [exact Hb |].
  destruct (catches e); [apply Hh |]; exact Hb.
Qed.

Lemma keeps_getitem {A} (key : string) (o : option A) : keeps Q (getitem key o).
Proof. destruct o; intros w HQ; exact HQ. Qed.

End Keeps.

(** Decompose an action into binds and handlers; what remains either does
    not touch the files or is left to the caller. *)
Ltac keeps_step :=
  lazymatch goal with
  | |- keeps _ (_ ≫= _) => apply keeps_bind; [| intros ?]
  | |- keeps _ (try_except _ _ _) => apply keeps_try; [| intros ?]
  | |- keeps _ (getitem _ _) => apply keeps_getitem
  | |- keeps _ (if ?b then _ else _) => destruct b
  | |- keeps _ (match ?x with _ => _ end) => destruct x
  end.

Ltac keeps_auto :=
  repeat keeps_step; try (intros ? HQ; exact HQ).

(** The destination depends on the text of ["config.json"] alone. *)
Lemma destination_of_lookup (fs : gmap string (list Item)) :
  destination_of (omap config_of fs)
  = default "arbitrage_data.csv"%string
      (output_csv (default default_config (fs !! "config.json"%string ≫= config_of))).
Proof. unfold destination_of. rewrite lookup_omap. reflexivity. Qed.

Lemma logs_to_same (d : string) (fs fs' : gmap string (list Item)) :
  fs' !! "config.json"%string = fs !! "config.json"%string -> logs_to d fs -> logs_to d fs'.
Proof.
  unfold logs_to, loadable. rewrite !destination_of_lookup. intros ->. auto.
Qed.

Lemma logs_to_unloadable (d : string) (fs : gmap string (list Item)) (content : list Item) :
  fs !! "config.json"%string = Some content -> config_of content = None -> logs_to d fs.
Proof.
  intros Hc Hnone [Habs | [c Hsome]]; [congruence |].
  rewrite Hc in Hsome. cbn in Hsome. congruence.
Qed.

Lemma config_of_snoc_line (old : list Item) (row : Row) : config_of (old ++ [Line row]) = None.
Proof. destruct old as [| [c | | r] [| ? ?]]; reflexivity. Qed.

(** Adding lines at the end of a file keeps the runs on their log. *)
Lemma logs_to_append (d f : string) (fs : gmap string (list Item)) (old extra : list Item) :
  fs !! f = Some old ->
  extra = [] \/ (exists row, extra = [Line row]) ->
  logs_to d fs -> logs_to d (<[f := old ++ extra]> fs).
Proof.
  intros Hold Hextra Hd.
  destruct Hextra as [-> | [row ->]].
  - rewrite app_nil_r, insert_id by exact Hold. exact Hd.
  - destruct (decide (f = "config.json"%string)) as [-> | Hne].
    + apply (logs_to_unloadable _ _ (old ++ [Line row]));
        [apply lookup_insert_eq | apply config_of_snoc_line].
    + apply (logs_to_same d fs); [apply lookup_insert_ne; exact Hne | exact Hd].
Qed.

Lemma appended_to_refl (f : string) (content : list Item) (fs : gmap string (list Item)) :
  fs !! f = Some content -> appended_to f content fs.
Proof. intros H. exists []. rewrite app_nil_r. split; [exact H | constructor]. Qed.

Lemma appended_to_trans (f : string) (content : list Item) (fs1 fs2 : gmap string (list Item)) :
  appended_to f content fs1 ->
  (forall content1, fs1 !! f = Some content1 -> appended_to f content1 fs2) ->
  appended_to f content fs2.
Proof.
  intros (more1 & Hf1 & Hall1) H2. destruct (H2 _ Hf1) as (more2 & Hf2 & Hall2).
  exists (more1 ++ more2). rewrite app_assoc. split; [exact Hf2 |].
  rewrite rows_of_app. apply Forall_app. auto.
Qed.

Lemma appended_to_rows (f : string) (content : list Item) (w : World) :
  appended_to f content (files w) ->
  exists data, csv_files w !! f = Some (rows_of content ++ data) /\
               Forall (fun row => row <> csv_header) data.
Proof.
  intros (more & Hf & Hall). exists (rows_of more).
  rewrite csv_files_lookup, Hf. cbn. rewrite rows_of_app. auto.
Qed.

Section Restarts.

Variable env : Env.
Variable GSHEETS_AVAILABLE : bool.

Lemma keeps_remote_call Q : keeps Q (remote_call env).
Proof. unfold remote_call. keeps_auto. Qed.

Lemma keeps_sheet_append_row Q (sheet_name : string) (row : Row) :
  keeps Q (sheet_append_row env sheet_name row).
Proof. unfold sheet_append_row. keeps_auto. apply keeps_remote_call. Qed.

Lemma keeps_write_to_sheets Q (self : Monitor) (row : Row) :
  keeps Q (write_to_sheets env self row).
Proof. unfold write_to_sheets. keeps_auto. apply keeps_sheet_append_row. Qed.

Lemma keeps_fetch_market_prices Q (market : Market) :
  keeps Q (fetch_market_prices env market).
Proof. unfold fetch_market_prices. keeps_auto. Qed.

Lemma keeps_setup_google_sheets Q (c : Config) : keeps Q (setup_google_sheets env c).
Proof.
  unfold setup_google_sheets. keeps_auto;
    apply keeps_remote_call || apply keeps_sheet_append_row.
Qed.

Lemma keeps_sleep Q (seconds : Z) : keeps Q (sleep env seconds).
Proof. unfold sleep. keeps_auto. Qed.

(** No part of an observation, nor the whole of it, is the header. *)
Lemma cut_observation_not_header (a b c d e f g h i : string) (below : bool)
    (fields chars : nat) :
  cut_row fields chars [a; b; c; d; e; f; g; yes_no below; h; i] <> csv_header.
Proof.
  intros H.
  pose proof (f_equal length H) as Hlen.
  pose proof (f_equal (fun l => l !! 7%nat) H) as H7.
  unfold cut_row in Hlen, H7.
  do 10 (destruct fields as [| fields];
         [cbn in Hlen, H7; try discriminate Hlen; destruct below; discriminate H7 |]).
  cbn in H7. destruct below; discriminate H7.
Qed.

(** What a write of [row], whole or cut, adds to a file. *)
Lemma write_row_adds (path : string) (old : list Item) (row : Row) (w : World) :
  exists extra,
    files (write_row env path old row w).1 = files w
    \/ files (write_row env path old row w).1 = <[path := old ++ extra]> (files w) /\
       (extra = [Line row] \/ exists fields chars, extra = leftover fields chars row).
Proof.
  unfold write_row. rewrite bind_eq. cbn [ask].
  destruct (write_error env (steps w) path) as [[e | e fields chars | e] |].
  - exists []. left. reflexivity.
  - exists (leftover fields chars row). right. split; [reflexivity | eauto].
  - exists [Line row]. right. split; [reflexivity | auto].
  - exists [Line row]. right. split; [reflexivity | auto].
Qed.

Section Running.

Variable self : Monitor.
Variable d : string.
Variable content0 : list Item.

Lemma keeps_write_to_csv (row : Row) :
  (forall fields chars, cut_row fields chars row <> csv_header) ->
  keeps (logging_to d (csv_file self) content0) (write_to_csv env self row).
Proof.
  intros Hcut w [Hd (more & Hf & Hall)].
  assert (row <> csv_header) as Hrow.
  { intros Heq. apply (Hcut (length row) 0%nat). unfold cut_row.
    rewrite take_ge by lia.
    replace (row !! length row) with (@None string) by (symmetry; apply lookup_ge_None_2; lia).
    rewrite app_nil_r. exact Heq. }
  unfold write_to_csv. rewrite bind_eq. cbn [get_world]. rewrite Hf. cbn [default from_option id].
  destruct (write_row_adds (csv_file self) (content0 ++ more) row w)
    as (extra & [Hsame | [Hnew Hextra]]).
  - rewrite Hsame. split; [exact Hd | exists more; auto].
  - rewrite Hnew.
    assert (extra = [] \/ exists r, extra = [Line r] /\ r <> csv_header) as Hshape.
    { destruct Hextra as [-> | (fields & chars & ->)]; [right; eauto |].
      destruct fields, chars; cbn; eauto. }
    split.
    + apply logs_to_append; [exact Hf | | exact Hd].
      destruct Hshape as [-> | (r & -> & _)]; eauto.
    + exists (more ++ extra). rewrite lookup_insert_eq, app_assoc. split; [reflexivity |].
      rewrite rows_of_app. apply Forall_app. split; [exact Hall |].
      destruct Hshape as [-> | (r & -> & Hr)]; repeat constructor. exact Hr.
Qed.

Lemma keeps_record_data (market : Market) (y n : float) :
  keeps (logging_to d (csv_file self) content0) (record_data env self market y n).
Proof.
  unfold record_data. keeps_auto;
    first [ apply keeps_write_to_sheets
          | apply keeps_write_to_csv; intros; apply cut_observation_not_header ].
Qed.

Lemma keeps_poll_markets (ms : list Market) :
  keeps (logging_to d (csv_file self) content0) (poll_markets env self ms).
Proof.
  induction ms as [| m ms IH]; cbn [poll_markets]; [keeps_auto |].
  apply keeps_bind; [| intros _; exact IH].
  unfold poll_market, handle_prices. keeps_auto;
    first [ apply keeps_fetch_market_prices | apply keeps_record_data ].
Qed.

Lemma keeps_loop (fuel it : nat) :
  keeps (logging_to d (csv_file self) content0) (loop env self fuel it).
Proof.
  revert it. induction fuel as [| fuel IH]; intros it; cbn [loop]; [keeps_auto |].
  apply keeps_bind; [| intros _; apply IH].
  unfold tick. keeps_auto; first [ apply keeps_poll_markets | apply keeps_sleep ].
Qed.

Lemma keeps_monitor_markets (fuel : nat) :
  keeps (logging_to d (csv_file self) content0) (monitor_markets env self fuel).
Proof. unfold monitor_markets. keeps_auto. apply keeps_loop. Qed.

End Running.

(** Reading the configuration: the log is not touched, and a configuration
    that is returned names the destination. *)
Lemma load_config_log (f : string) (w : World) :
  logs_to f (files w) ->
  exists w1 r,
    load_config env "config.json" w = (w1, r) /\
    logs_to f (files w1) /\
    files w1 !! f = files w !! f /\
    (forall c, r = Ok c ->
               default "arbitrage_data.csv"%string (output_csv c) = f /\
               is_Some (files w1 !! "config.json"%string)) /\
    (files_open env -> files_readable env -> loadable (files w) -> exists c, r = Ok c).
Proof.
  intros Hlog. unfold load_config. rewrite bind_eq. cbn [ask].
  destruct (read_error env (steps w) "config.json") as [msg |] eqn:Hread.
  { eexists _, _. split; [reflexivity |]. split; [exact Hlog |]. split; [reflexivity |].
    split; [intros c [=] |]. intros _ Hr _. rewrite Hr in Hread. discriminate. }
  rewrite bind_eq. cbn [get_world files asked].
  destruct (files w !! "config.json"%string) as [content |] eqn:Hfile.
  - destruct (config_of content) as [c |] eqn:Hdoc.
    + eexists _, _. split; [reflexivity |]. split; [exact Hlog |]. split; [reflexivity |].
      split; [| eauto]. intros c' [= <-]. split; [| cbn [files asked]; eauto].
      rewrite <- Hlog by (right; rewrite Hfile; cbn; eauto).
      rewrite destination_of_lookup, Hfile. cbn. rewrite Hdoc. reflexivity.
    + eexists _, _. split; [reflexivity |]. split; [exact Hlog |]. split; [reflexivity |].
      split; [intros c [=] |]. intros _ _ [Habs | [c Hc]]; [congruence |].
      rewrite Hfile in Hc. cbn in Hc. congruence.
  - assert (f = "arbitrage_data.csv"%string) as Hf.
    { rewrite <- Hlog by (left; exact Hfile). rewrite destination_of_lookup, Hfile. reflexivity. }
    unfold dump_config. rewrite !bind_eq. cbn [ask steps asked].
    destruct (write_error env (S (steps w)) "config.json") as [[e | e fields chars | e] |]
      eqn:Hwrite.
    + eexists _, _. split; [reflexivity |]. split; [exact Hlog |]. split; [reflexivity |].
      split; [intros c [=] |]. intros Hw _ _. rewrite Hw in Hwrite. discriminate.
    + eexists _, _. split; [reflexivity |]. cbn [files with_file asked].
      split; [apply (logs_to_unloadable _ _ [TornDoc]); [apply lookup_insert_eq | reflexivity] |].
      split; [apply lookup_insert_ne; rewrite Hf; discriminate |].
      split; [intros c [=] |]. intros Hw _ _. rewrite Hw in Hwrite. discriminate.
    + eexists _, _. split; [reflexivity |]. cbn [files with_file asked].
      split; [intros _; rewrite destination_of_lookup, lookup_insert_eq, Hf; reflexivity |].
      split; [apply lookup_insert_ne; rewrite Hf; discriminate |].
      split; [intros c [=] |]. intros Hw _ _. rewrite Hw in Hwrite. discriminate.
    + eexists _, _. split; [reflexivity |]. cbn [files with_file asked logged].
      split; [| split; [apply lookup_insert_ne; rewrite Hf; discriminate |
                        split; [| eauto]]].
      * intros _. rewrite destination_of_lookup, lookup_insert_eq. rewrite Hf. reflexivity.
      * intros c [= <-]. split; [rewrite Hf; reflexivity |].
        rewrite lookup_insert_eq. eauto.
Qed.

Lemma setup_csv_log (f : string) (w : World) :
  match files w !! f with
  | Some content => setup_csv env f w = (w, Ok tt)
  | None =>
      match write_error env (steps w) f with
      | Some failure =>
          setup_csv env f w
          = (match failure with
             | Refused _ => asked w
             | _ => with_file f (left_on_disk failure csv_header) (asked w)
             end, Raise (failure_exn failure))
      | None =>
          setup_csv env f w
          = (logged (Print (CreatedCsv f))
               (logged (CsvWrite f csv_header) (with_file f [Line csv_header] (asked w))), Ok tt)
      end
  end.
Proof.
  unfold setup_csv, write_row. rewrite bind_eq. cbn [get_world].
  destruct (files w !! f) as [content |] eqn:Hf.
  - rewrite bool_decide_eq_true_2 by eauto. reflexivity.
  - rewrite bool_decide_eq_false_2 by (intros [? ?]; congruence).
    cbn [negb]. rewrite !bind_eq. cbn [ask].
    destruct (write_error env (steps w) f) as [[e | e fields chars | e] |]; reflexivity.
Qed.

(** [__init__]: the header is written when, and only when, the file is
    created. *)
Lemma init_log (f : string) (w : World) :
  logs_to f (files w) ->
  exists w1 r,
    init env GSHEETS_AVAILABLE "config.json" w = (w1, r) /\
    logs_to f (files w1) /\
    started_on (files w !! f) (files w1 !! f) /\
    (forall monitor, r = Ok monitor -> csv_file monitor = f /\ is_Some (files w1 !! f)) /\
    (files_open env -> files_readable env -> loadable (files w) -> files w !! f = None ->
     files w1 !! f = Some [Line csv_header]).
Proof.
  intros Hlog. unfold init. rewrite bind_eq.
  destruct (load_config_log f w Hlog) as (w1 & r1 & -> & Hlog1 & Hf1 & Hok1 & Hgood).
  destruct r1 as [c | e].
  2:{ eexists _, _. split; [reflexivity |]. split; [exact Hlog1 |]. rewrite Hf1.
      split; [destruct (files w !! f); cbn; auto |].
      split; [intros monitor [=] |].
      intros Hw Hr Hload _. destruct (Hgood Hw Hr Hload) as [c [=]]. }
  destruct (Hok1 c eq_refl) as [Hc Hconfig]. rewrite Hc. rewrite bind_eq.
  set (gs := if GSHEETS_AVAILABLE && truthy (default (JBool false) (use_google_sheets c))
             then setup_google_sheets env c else mret None).
  assert (forall (content : list Item) w2,
             logs_to f (files w2) -> files w2 !! f = Some content ->
             exists w3 r,
               (gs ≫= (fun gsheet => mret {| config := c; csv_file := f; gsheet := gsheet |})) w2
               = (w3, r) /\ logs_to f (files w3) /\ files w3 !! f = Some content /\
               (forall monitor, r = Ok monitor -> csv_file monitor = f)) as Hrest.
  { intros content w2 Hlog2 Hf2.
    assert (keeps (fun fs => logs_to f fs /\ fs !! f = Some content) gs) as Hk.
    { subst gs. destruct (_ && _); [apply keeps_setup_google_sheets |].
      intros ? HQ; exact HQ. }
    specialize (Hk w2 (conj Hlog2 Hf2)). rewrite bind_eq.
    destruct (gs w2) as [w3 [g | e]]; cbn [fst] in Hk; destruct Hk as [Hlog3 Hf3];
      eexists _, _; (split; [reflexivity |]); (split; [exact Hlog3 |]);
      (split; [exact Hf3 |]).
    - intros monitor [= <-]. reflexivity.
    - intros monitor [=]. }
  pose proof (setup_csv_log f w1) as Hsetup. rewrite Hf1 in Hsetup.
  destruct (files w !! f) as [content |] eqn:Hf.
  - rewrite Hsetup.
    destruct (Hrest content w1 Hlog1 Hf1) as (w3 & r & -> & Hlog3 & Hf3 & Hmon).
    eexists _, _. split; [reflexivity |]. split; [exact Hlog3 |].
    split; [exact Hf3 |]. split; [| intros _ _ _ [=]].
    intros monitor Hr. split; [exact (Hmon monitor Hr) | rewrite Hf3; eauto].
  - assert (f <> "config.json"%string) as Hne.
    { intros ->. destruct Hconfig as [x Hx]. congruence. }
    destruct (write_error env (steps w1) f) as [failure |] eqn:Hwrite.
    + rewrite Hsetup. eexists _, _. split; [reflexivity |].
      destruct failure as [e | e fields chars | e]; cbn [files with_file asked left_on_disk].
      * split; [exact Hlog1 |]. split; [left; exact Hf1 |].
        split; [intros monitor [=] |]. intros Hw _ _ _. rewrite Hw in Hwrite. discriminate.
      * split; [apply (logs_to_same f (files w1));
                  [apply lookup_insert_ne; exact Hne | exact Hlog1] |].
        split; [right; eexists; split; [apply leftover_length | apply lookup_insert_eq] |].
        split; [intros monitor [=] |]. intros Hw _ _ _. rewrite Hw in Hwrite. discriminate.
      * split; [apply (logs_to_same f (files w1));
                  [apply lookup_insert_ne; exact Hne | exact Hlog1] |].
        split; [right; exists [Line csv_header]; split; [cbn; lia | apply lookup_insert_eq] |].
        split; [intros monitor [=] |]. intros Hw _ _ _. rewrite Hw in Hwrite. discriminate.
    + rewrite Hsetup.
      destruct (Hrest [Line csv_header]
                  (logged (Print (CreatedCsv f))
                     (logged (CsvWrite f csv_header) (with_file f [Line csv_header] (asked w1)))))
        as (w3 & r & -> & Hlog3 & Hf3 & Hmon).
      { cbn [files with_file asked logged].
        apply (logs_to_same f (files w1)); [apply lookup_insert_ne; exact Hne | exact Hlog1]. }
      { cbn [files with_file asked logged]. apply lookup_insert_eq. }
      eexists _, _. split; [reflexivity |]. split; [exact Hlog3 |].
      split; [right; exists [Line csv_header]; split; [cbn; lia | exact Hf3] |].
      split; [| intros _ _ _ _; exact Hf3].
      intros monitor Hr. split; [exact (Hmon monitor Hr) | rewrite Hf3; eauto].
Qed.

(** One run of the program, for any number of turns and whatever the
    environment does. *)
Lemma main_log (f : string) (fuel : nat) (w : World) :
  logs_to f (files w) ->
  let w' := (main env GSHEETS_AVAILABLE fuel w).1 in
  logs_to f (files w') /\
  match files w !! f with
  | Some content => appended_to f content (files w')
  | None => files w' !! f = None \/
            exists top, (length top <= 1)%nat /\ appended_to f top (files w')
  end /\
  (files_open env -> files_readable env -> loadable (files w) -> files w !! f = None ->
   appended_to f [Line csv_header] (files w')).
Proof.
  intros Hlog w'. subst w'. unfold main. rewrite bind_eq.
  destruct (init_log f w Hlog) as (w1 & r & -> & Hlog1 & Hstart & Hok & Hgood).
  assert (exists w', (match r with
                      | Ok monitor => monitor_markets env monitor fuel w1
                      | Raise e => (w1, Raise e)
                      end).1 = w' /\
                     logs_to f (files w') /\
                     forall content1, files w1 !! f = Some content1 ->
                                      appended_to f content1 (files w'))
    as (w' & Hw' & Hlog' & Happ).
  { destruct r as [monitor | e].
    - destruct (Hok monitor eq_refl) as [Hfile [content1 Hf1]].
      pose proof (keeps_monitor_markets monitor f content1 fuel w1) as Hk.
      rewrite Hfile in Hk.
      destruct (Hk (conj Hlog1 (appended_to_refl _ _ _ Hf1))) as [Hlog' Happ].
      eexists. split; [reflexivity |]. split; [exact Hlog' |].
      intros content1' Hf1'. rewrite Hf1 in Hf1'. injection Hf1' as <-. exact Happ.
    - exists w1. split; [reflexivity |]. split; [exact Hlog1 |].
      intros content1 Hf1. apply appended_to_refl. exact Hf1. }
  replace ((match r with
            | Ok a => monitor_markets env a fuel w1
            | Raise e => (w1, Raise e)
            end).1) with w' by (symmetry; exact Hw').
  split; [exact Hlog' |]. split.
  - unfold started_on in Hstart. destruct (files w !! f) as [content |].
    + apply Happ. exact Hstart.
    + destruct Hstart as [Hnone | (top & Hlen & Htop)].
      * destruct r as [monitor | e].
        -- destruct (Hok monitor eq_refl) as [_ [x Hx]]. congruence.
        -- left. cbn in Hw'. subst w'. exact Hnone.
      * right. exists top. split; [exact Hlen | apply Happ; exact Htop].
  - intros Hw Hr Hload Hnone. apply Happ. apply Hgood; assumption.
Qed.

(** Any number of runs, one after the other. *)
Lemma restarts_log (f : string) (fuels : list nat) (w : World) :
  logs_to f (files w) ->
  let w' := restarts env GSHEETS_AVAILABLE fuels w in
  logs_to f (files w') /\
  match files w !! f with
  | Some content => appended_to f content (files w')
  | None => files w' !! f = None \/
            exists top, (length top <= 1)%nat /\ appended_to f top (files w')
  end /\
  (files_open env -> files_readable env -> loadable (files w) -> files w !! f = None ->
   fuels <> [] -> appended_to f [Line csv_header] (files w')).
Proof.
  revert w. induction fuels as [| fuel fuels IH]; intros w Hlog w'.
  - subst w'. cbn. split; [exact Hlog |]. split; [| congruence].
    destruct (files w !! f) eqn:Hf; [apply appended_to_refl; exact Hf | left; reflexivity].
  - subst w'. cbn [restarts foldl].
    destruct (main_log f fuel w Hlog) as (Hlog1 & Hrun1 & Hgood1).
    set (w1 := (main env GSHEETS_AVAILABLE fuel w).1) in *.
    destruct (IH w1 Hlog1) as (Hlog2 & Hrun2 & _).
    fold (restarts env GSHEETS_AVAILABLE fuels w1) in *.
    set (w2 := restarts env GSHEETS_AVAILABLE fuels w1) in *.
    assert (forall content1, files w1 !! f = Some content1 ->
                             appended_to f content1 (files w2)) as Hnext.
    { intros content1 Hf1. rewrite Hf1 in Hrun2. exact Hrun2. }
    split; [exact Hlog2 |]. split.
    + destruct (files w !! f) as [content |].
      * exact (appended_to_trans _ _ _ _ Hrun1 Hnext).
      * destruct Hrun1 as [Hnone | (top & Hlen & Htop)].
        -- rewrite Hnone in Hrun2. exact Hrun2.
        -- right. exists top. split; [exact Hlen |].
           exact (appended_to_trans _ _ _ _ Htop Hnext).
    + intros Hw Hr Hload Hnone _.
      exact (appended_to_trans _ _ _ _ (Hgood1 Hw Hr Hload Hnone) Hnext).
Qed.


End Restarts.

(** ** Configuration *)

Section Configuration.

Variable env : Env.

Lemma record_data_no_thresholds (self : Monitor) (market : Market) (y n : float) (w : World) :
  thresholds (config self) = None ->
  record_data env self market y n w = (asked w, Raise (KeyError "thresholds")).
Proof. intros H. unfold record_data. rewrite H. reflexivity. Qed.

Lemma monitor_markets_no_markets (self : Monitor) (fuel : nat) (w : World) :
  markets (config self) = None ->
  monitor_markets env self fuel w
  = (logged (Print Rule) (logged (Print Started) (logged (Print Rule) w)),
     Raise (KeyError "markets")).
Proof. intros H. unfold monitor_markets. rewrite H. reflexivity. Qed.

(** C6, as amended: when the configuration file does not exist and can
    be written, [load_config] returns the default configuration, with all
    six fields, and writes it to the file; when that write fails, the
    error leaves [load_config], and the file holds the default only if
    the failure came once the whole text was written.  When
    the file holds a JSON document, its dictionary is returned as read:
    nothing is written back and no missing field is filled in, so that a
    missing ["thresholds"] or ["markets"] raises [KeyError] where it is
    first read.  A file that cannot be opened for reading, or whose text
    is not a JSON document, makes [load_config] raise. *)
Theorem load_config_defaults (config_file : string) (w : World) :
  match read_error env (steps w) config_file with
  | Some e => load_config env config_file w = (asked w, Raise e)
  | None =>
      match files w !! config_file with
      | None =>
          match write_error env (S (steps w)) config_file with
          | None =>
              exists w', load_config env config_file w = (w', Ok default_config) /\
                         config_files w' = <[config_file := default_config]> (config_files w) /\
                         fill_defaults empty_config = default_config
          | Some failure =>
              exists w', load_config env config_file w
                         = (w', Raise (failure_exn failure)) /\
                         config_files w'
                         = match failure with
                           | Late _ => <[config_file := default_config]> (config_files w)
                           | _ => config_files w
                           end
          end
      | Some content =>
          match config_of content with
          | Some c =>
              load_config env config_file w = (asked w, Ok c) /\
              (forall self market y n w0,
                  config self = c -> thresholds c = None ->
                  record_data env self market y n w0
                  = (asked w0, Raise (KeyError "thresholds"))) /\
              (forall self fuel w0,
                  config self = c -> markets c = None ->
                  exists w1, monitor_markets env self fuel w0
                             = (w1, Raise (KeyError "markets")))
          | None => load_config env config_file w = (asked w, Raise (JSONDecodeError config_file))
          end
      end
  end.
Proof.
  unfold load_config. rewrite bind_eq. cbn [ask].
  destruct (read_error env (steps w) config_file) as [msg |]; [reflexivity |].
  rewrite bind_eq. cbn [get_world files asked].
  destruct (files w !! config_file) as [content |] eqn:Hfile.
  - destruct (config_of content) as [c |]; [| reflexivity].
    split; [reflexivity |]. split.
    + intros self market y n w0 <- Hth. apply record_data_no_thresholds. exact Hth.
    + intros self fuel w0 <- Hms. eexists. apply monitor_markets_no_markets. exact Hms.
  - unfold dump_config. rewrite !bind_eq. cbn [ask steps asked].
    destruct (write_error env (S (steps w)) config_file) as [[e | e fields chars | e] |].
    + eexists. split; [reflexivity |]. reflexivity.
    + eexists. split; [reflexivity |].
      apply (config_files_new w _ config_file [TornDoc]); [reflexivity | exact Hfile | reflexivity].
    + eexists. split; [reflexivity |]. apply config_files_insert. reflexivity.
    + eexists. split; [reflexivity |]. split; [| reflexivity].
      apply config_files_insert. reflexivity.
Qed.

End Configuration.

(** C6 as stated fails: a configuration file that lacks ["thresholds"] is
    returned as it is, and nothing is written back. *)
Lemma missing_fields_not_filled :
  ~ fills_and_persists quiet_env "config.json" markets_only_world.
Proof.
  intros (w' & Hload & _). vm_compute in Hload. discriminate Hload.
Qed.

(** ** The properties at work on concrete runs *)

Lemma quiet_env_no_interrupts : no_interrupts quiet_env.
Proof. repeat split; intros; discriminate || reflexivity. Qed.

Lemma mirror_down_no_interrupts : no_interrupts mirror_down_env.
Proof.
  split; [| split].
  - intros i m e H. discriminate H.
  - intros i e [= <-]. reflexivity.
  - reflexivity.
Qed.

Lemma b_fails_no_interrupts : no_interrupts b_fails_env.
Proof.
  split; [| split].
  - intros i m e. cbn. destruct (String.eqb (market_name m) "B"); [| discriminate].
    intros [= <-]. reflexivity.
  - intros i e H. discriminate H.
  - reflexivity.
Qed.

Lemma concrete_scenario_witness :
  has_levels (sample_monitor [] default_levels None) (lit 100 100) (lit 95 100) (lit 90 100) /\
  write_error quiet_env 1 "arbitrage_data.csv" = None /\
  exists w' gap,
    record_data quiet_env (sample_monitor [] default_levels None) (sample_market "A")
      (lit 46 100) (lit 50 100) empty_world = (w', Ok gap) /\
    fmt4 gap = "0.0400"%string.
Proof.
  split; [apply default_levels_has |]. split; [reflexivity |].
  destruct (concrete_scenario quiet_env (sample_monitor [] default_levels None)
              (sample_market "A") empty_world)
    as [(w' & gap & Hrun & Hgap & _) _].
  - apply default_levels_has.
  - reflexivity.
  - intros e H. discriminate H.
  - exists w', gap. split; [exact Hrun | exact Hgap].
Defined.

Lemma evaluation_deterministic_witness :
  utcnow quiet_env 0 = utcnow mirror_down_env 0 /\
  exists w1 w1' gap row,
    record_data quiet_env (sample_monitor [] default_levels None) (sample_market "A")
      (lit 46 100) (lit 50 100) empty_world = (w1, Ok gap) /\
    record_data mirror_down_env (sample_monitor [] default_levels (Some "Mirror"))
      (sample_market "A") (lit 46 100) (lit 50 100) empty_world = (w1', Ok gap) /\
    csv_rows w1 "arbitrage_data.csv" = [row] /\
    csv_rows w1' "arbitrage_data.csv" = [row].
Proof.
  split; [reflexivity |].
  apply (evaluation_deterministic quiet_env mirror_down_env
           (sample_monitor [] default_levels None)
           (sample_monitor [] default_levels (Some "Mirror"%string))
           (sample_market "A") (lit 46 100) (lit 50 100) empty_world empty_world
           (lit 100 100) (lit 95 100) (lit 90 100)).
  - apply default_levels_has.
  - apply default_levels_has.
  - reflexivity.
  - reflexivity.
  - reflexivity.
  - intros e H. discriminate H.
  - intros e [= <-]. reflexivity.
Defined.

Lemma mirror_isolation_witness :
  files_open mirror_down_env /\
  no_interrupts mirror_down_env /\
  (forall i, sheets_error mirror_down_env i = Some (Exception "quota exceeded")) /\
  exists w' rows,
    monitor_markets mirror_down_env
      (sample_monitor [sample_market "A"; sample_market "B"] default_levels (Some "Mirror"))
      3 empty_world = (w', Ok Running) /\
    csv_rows w' "arbitrage_data.csv" = rows /\
    length rows = 6%nat.
Proof.
  split; [intros i f; reflexivity |]. split; [apply mirror_down_no_interrupts |].
  split; [reflexivity |].
  destruct (mirror_isolation mirror_down_env
              (sample_monitor [sample_market "A"; sample_market "B"] default_levels
                 (Some "Mirror"%string))
              (lit 100 100) (lit 95 100) (lit 90 100)
              (default_levels_has _ _) (fun i f => eq_refl) mirror_down_no_interrupts
              [sample_market "A"; sample_market "B"] 5 eq_refl eq_refl ltac:(lia))
    as (_ & _ & Hloop).
  destruct (Hloop ltac:(repeat constructor; intros i; eexists _, _; reflexivity) 3%nat empty_world)
    as (w' & rows & Hrun & Hrows & Hlen).
  exists w', rows. split; [exact Hrun |]. split; [exact Hrows | exact Hlen].
Defined.

Lemma fault_isolation_witness :
  no_interrupts b_fails_env /\
  (forall i, price_request b_fails_env i (sample_market "B") = inl (Exception "timeout")) /\
  exists w' rows evs,
    tick b_fails_env
      (sample_monitor [sample_market "A"; sample_market "B"; sample_market "C"]
         default_levels None) 1 empty_world = (w', Ok tt) /\
    csv_rows w' "arbitrage_data.csv" = rows /\
    length rows = 2%nat /\
    trace w' = evs ++ [Sleep 5] /\
    failure_lines evs = [ Print (ErrorFetching "B" (Exception "timeout"));
                          Print (FailedToFetch "B") ].
Proof.
  split; [apply b_fails_no_interrupts |]. split; [reflexivity |].
  destruct (fault_isolation b_fails_env
              (sample_monitor [sample_market "A"; sample_market "B"; sample_market "C"]
                 default_levels None)
              (lit 100 100) (lit 95 100) (lit 90 100)
              (default_levels_has _ _) (fun i f => eq_refl) b_fails_no_interrupts
              [sample_market "A"; sample_market "B"; sample_market "C"] 5
              eq_refl eq_refl ltac:(lia)
              [sample_market "A"] [sample_market "C"] (sample_market "B")
              (Exception "timeout") 0%nat empty_world eq_refl)
    as (w' & rows & evs & Hrun & Hrows & Hids & Htrace & Hlines & _).
  - repeat constructor. intros i. eexists _, _. reflexivity.
  - repeat constructor. intros i. eexists _, _. reflexivity.
  - reflexivity.
  - exists w', rows, evs. split; [exact Hrun |]. split; [exact Hrows |].
    split; [exact (Forall2_length _ _ _ Hids) |]. split; [exact Htrace | exact Hlines].
Defined.

(** C5 as stated fails: the market whose request times out leaves two
    failure lines, and they carry its name, not its id. *)
Lemma two_failure_lines :
  ~ isolates_fault b_fails_env
      (sample_monitor [sample_market "A"; sample_market "B"; sample_market "C"]
         default_levels None)
      1 empty_world [sample_market "A"] (sample_market "B") [sample_market "C"].
Proof.
  intros (w' & rows & evs & entry & seconds & Htick & _ & _ & Htrace & Hlines & _).
  vm_compute in Htick. injection Htick as Hw. subst w'.
  apply (f_equal (fun l => failure_lines (removelast l))) in Htrace.
  cbn [trace empty_world app] in Htrace.
  rewrite removelast_last, Hlines in Htrace.
  vm_compute in Htrace. discriminate Htrace.
Qed.

Lemma durable_failure_propagates_witness :
  write_error disk_fills_env 6 "arbitrage_data.csv" = Some (Cut (OSError "No space left on device") 3 2) /\
  exists w',
    monitor_markets disk_fills_env
      (sample_monitor [sample_market "A"; sample_market "B"; sample_market "C"]
         default_levels None) 2 empty_world
    = (w', Raise (OSError "No space left on device")) /\
    csv_rows w' "arbitrage_data.csv"
    = [ observation_row "2024-01-01 00:00:00" (sample_market "A") (lit 46 100) (lit 50 100)
          (lit 100 100) (lit 95 100) (lit 90 100);
        [ "2024-01-01 00:00:00"; "id_B"; "B"; "0." ]%string ].
Proof.
  split; [reflexivity |].
  set (self := sample_monitor [sample_market "A"; sample_market "B"; sample_market "C"]
                 default_levels None).
  set (w := (monitor_markets disk_fills_env self 0 empty_world).1).
  set (w1 := (poll_markets disk_fills_env self [sample_market "A"]
                (logged (Print (Iteration 1 (utcnow disk_fills_env (steps w)))) (asked w))).1).
  destruct (durable_failure_propagates disk_fills_env self
              (lit 100 100) (lit 95 100) (lit 90 100) (default_levels_has _ _)
              [sample_market "A"; sample_market "B"; sample_market "C"] 5 eq_refl eq_refl
              [sample_market "A"] [sample_market "C"] (sample_market "B")
              (lit 46 100) (lit 50 100) (Cut (OSError "No space left on device") 3 2) 0%nat
              empty_world w w1 eq_refl)
    as (_ & _ & _ & Hcsv & Hmon).
  - reflexivity.
  - reflexivity.
  - reflexivity.
  - reflexivity.
  - reflexivity.
  - eexists. split; [exact (Hmon 1%nat) |].
    etrans; [exact Hcsv | vm_compute; reflexivity].
Defined.

(** C2 as stated fails: when the file system refuses the write, the error
    leaves [monitor_markets] and ends the run. *)
Lemma durable_failure_ends_the_run :
  ~ survives_durable_failure read_only_env
      (sample_monitor [sample_market "A"] default_levels None) 1 empty_world.
Proof.
  intros Hsurvives.
  assert (exists w', monitor_markets read_only_env
                       (sample_monitor [sample_market "A"] default_levels None) 1 empty_world
                     = (w', Raise (OSError "Read-only file system"))) as [w' Hrun]
    by (eexists; vm_compute; reflexivity).
  exact (Hsurvives w' _ Hrun).
Qed.



(** C9 as stated fails: an interrupt that arrives during the request is
    not an [Exception], and leaves [fetch_market_prices]. *)
Lemma interrupt_leaves_the_fetch :
  ~ fetch_is_total interrupted_env (sample_market "A") empty_world.
Proof.
  intros (w' & pair & Hfetch). vm_compute in Hfetch. discriminate Hfetch.
Qed.

Lemma fetch_contains_failures_witness :
  price_request timeout_env 0 (sample_market "A") = inl (Exception "timeout") /\
  fetch_market_prices timeout_env (sample_market "A") empty_world
  = (logged (Print (ErrorFetching "A" (Exception "timeout"))) (asked empty_world),
     Ok (None, None)).
Proof.
  split; [reflexivity |].
  exact (proj1 (proj2 (fetch_contains_failures timeout_env (sample_market "A") empty_world))
           (Exception "timeout") eq_refl eq_refl).
Defined.

Lemma unfetched_market_skipped_witness :
  handle_prices quiet_env (sample_monitor [] default_levels None) (sample_market "A")
    (Some (lit 46 100), None) empty_world
  = (logged (Print (FailedToFetch "A")) empty_world, Ok tt).
Proof.
  exact (proj1 (unfetched_market_skipped quiet_env (sample_monitor [] default_levels None)
                  (sample_market "A") (Some (lit 46 100)) None (or_intror eq_refl))
           empty_world).
Defined.


(** * Further properties of the program *)

(** ** Start-up *)

Section Startup.

Variable env : Env.
Variable GSHEETS_AVAILABLE : bool.

(** Loading a file that holds a JSON document. *)
Lemma load_config_present (config_file : string) (content : list Item) (c : Config)
    (w : World) :
  files w !! config_file = Some content -> config_of content = Some c ->
  load_config env config_file w
  = match read_error env (steps w) config_file with
    | Some e => (asked w, Raise e)
    | None => (asked w, Ok c)
    end.
Proof.
  intros Hfile Hdoc. unfold load_config. rewrite bind_eq. cbn [ask].
  destruct (read_error env (steps w) config_file); [reflexivity |].
  rewrite bind_eq. cbn [get_world files asked]. rewrite Hfile, Hdoc. reflexivity.
Qed.

(** X1: What is persisted is what the next start reads: when [load_config]
    returns a configuration, whether read or created, the file holds that
    configuration, and loading again, the file being readable, returns the
    same configuration and writes nothing. *)
Theorem load_config_reload (config_file : string) (w w1 : World) (c : Config) :
  load_config env config_file w = (w1, Ok c) ->
  read_error env (steps w1) config_file = None ->
  config_files w1 !! config_file = Some c /\
  load_config env config_file w1 = (asked w1, Ok c).
Proof.
  intros Hload Hread.
  assert (exists content, files w1 !! config_file = Some content /\ config_of content = Some c)
    as (content & Hfile & Hdoc).
  { revert Hload. unfold load_config. rewrite bind_eq. cbn [ask].
    destruct (read_error env (steps w) config_file); [discriminate |].
    rewrite bind_eq. cbn [get_world files asked].
    destruct (files w !! config_file) as [content |] eqn:Hfile.
    - destruct (config_of content) as [c0 |] eqn:Hdoc; [| discriminate].
      intros [= <- <-]. eauto.
    - unfold dump_config. rewrite !bind_eq. cbn [ask steps asked].
      destruct (write_error env (S (steps w)) config_file) as [[e | e fields chars | e] |];
        try discriminate.
      intros [= <- <-]. exists [Doc default_config].
      split; [apply lookup_insert_eq | reflexivity]. }
  split.
  - rewrite config_files_lookup, Hfile. exact Hdoc.
  - rewrite (load_config_present config_file content c w1 Hfile Hdoc), Hread. reflexivity.
Qed.

Lemma load_config_frame (config_file : string) (w : World) :
  sheets (load_config env config_file w).1 = sheets w.
Proof.
  unfold load_config. rewrite bind_eq. cbn [ask].
  destruct (read_error env (steps w) config_file); [reflexivity |].
  rewrite bind_eq. cbn [get_world files asked].
  destruct (files w !! config_file) as [content |].
  - destruct (config_of content); reflexivity.
  - unfold dump_config. rewrite !bind_eq. cbn [ask steps asked].
    destruct (write_error env (S (steps w)) config_file) as [[e | e fields chars | e] |];
      reflexivity.
Qed.

(** [__init__] is its three steps in sequence. *)
Lemma init_eq (config_file : string) (w : World) :
  init env GSHEETS_AVAILABLE config_file w
  = match load_config env config_file w with
    | (w1, Ok c) =>
        match setup_csv env (default "arbitrage_data.csv"%string (output_csv c)) w1 with
        | (w2, Ok _) =>
            match (if GSHEETS_AVAILABLE && truthy (default (JBool false) (use_google_sheets c))
                   then setup_google_sheets env c else mret None) w2 with
            | (w3, Ok g) =>
                (w3, Ok {| config := c;
                           csv_file := default "arbitrage_data.csv"%string (output_csv c);
                           gsheet := g |})
            | (w3, Raise e) => (w3, Raise e)
            end
        | (w2, Raise e) => (w2, Raise e)
        end
    | (w1, Raise e) => (w1, Raise e)
    end.
Proof.
  unfold init. rewrite bind_eq.
  destruct (load_config env config_file w) as [w1 [c | e]]; [| reflexivity].
  rewrite bind_eq.
  destruct (setup_csv env _ w1) as [w2 [[] | e]]; [| reflexivity].
  rewrite bind_eq.
  destruct ((if GSHEETS_AVAILABLE && truthy (default (JBool false) (use_google_sheets c))
             then setup_google_sheets env c else mret None) w2) as [w3 [g | e]]; reflexivity.
Qed.

Lemma setup_csv_frame (f : string) (w : World) :
  config_files (setup_csv env f w).1 = config_files w /\
  sheets (setup_csv env f w).1 = sheets w.
Proof.
  pose proof (setup_csv_log env f w) as H.
  destruct (files w !! f) eqn:Hf; [rewrite H; split; reflexivity |].
  destruct (write_error env (steps w) f) as [[e | e fields chars | e] |]; rewrite H;
    (split; [| reflexivity]); cbn [fst].
  - reflexivity.
  - apply (config_files_new w _ f (leftover fields chars csv_header));
      [reflexivity | exact Hf | apply leftover_not_document].
  - apply (config_files_new w _ f [Line csv_header]); [reflexivity | exact Hf | reflexivity].
  - apply (config_files_new w _ f [Line csv_header]); [reflexivity | exact Hf | reflexivity].
Qed.

(** X2: A configuration file that exists is used as it is and left as it is:
    the monitor holds its dictionary, logs to the file named by
    ["output_csv"] or, without that key, to ["arbitrage_data.csv"], and no
    configuration file is written. *)
Theorem init_uses_config_as_read (config_file : string) (c : Config) (w w' : World)
    (monitor : Monitor) :
  config_files w !! config_file = Some c ->
  init env GSHEETS_AVAILABLE config_file w = (w', Ok monitor) ->
  config monitor = c /\
  csv_file monitor = default "arbitrage_data.csv"%string (output_csv c) /\
  config_files w' = config_files w.
Proof.
  intros Hc. rewrite init_eq.
  rewrite config_files_lookup in Hc.
  destruct (files w !! config_file) as [content |] eqn:Hfile; [| discriminate Hc].
  cbn in Hc. rewrite (load_config_present config_file content c w Hfile Hc).
  destruct (read_error env (steps w) config_file); [discriminate |].
  pose proof (setup_csv_frame (default "arbitrage_data.csv"%string (output_csv c)) (asked w))
    as [Hcf _].
  destruct (setup_csv env _ (asked w)) as [w2 [[] | e]]; [| discriminate]. cbn [fst] in Hcf.
  assert (keeps (fun fs => omap config_of fs = config_files w)
            (if GSHEETS_AVAILABLE && truthy (default (JBool false) (use_google_sheets c))
             then setup_google_sheets env c else mret None)) as Hk.
  { destruct (_ && _); [apply keeps_setup_google_sheets | intros ? HQ; exact HQ]. }
  specialize (Hk w2 Hcf).
  destruct ((if GSHEETS_AVAILABLE && truthy (default (JBool false) (use_google_sheets c))
             then setup_google_sheets env c else mret None) w2) as [w3 [g | e]];
    [| discriminate].
  intros [= <- <-]. repeat split. exact Hk.
Qed.

(** X3: The mirror is off unless the optional library is there and the value
    under ["use_google_sheets"] is true in Python's sense (a missing key
    counts as [False]): otherwise the monitor has no worksheet and start-up
    does not talk to the spreadsheet service. *)
Theorem mirror_off_by_default (config_file : string) (w w' : World) (monitor : Monitor) :
  init env GSHEETS_AVAILABLE config_file w = (w', Ok monitor) ->
  GSHEETS_AVAILABLE = false
  \/ truthy (default (JBool false) (use_google_sheets (config monitor))) = false ->
  gsheet monitor = None /\ sheets w' = sheets w.
Proof.
  rewrite init_eq.
  pose proof (load_config_frame config_file w) as Hs1.
  destruct (load_config env config_file w) as [w1 [c | e]]; [| discriminate]. cbn [fst] in Hs1.
  pose proof (setup_csv_frame (default "arbitrage_data.csv"%string (output_csv c)) w1) as [_ Hs2].
  destruct (setup_csv env _ w1) as [w2 [[] | e]]; [| discriminate]. cbn [fst] in Hs2.
  destruct (GSHEETS_AVAILABLE && truthy (default (JBool false) (use_google_sheets c))) eqn:Hon.
  - destruct (setup_google_sheets env c w2) as [w3 [g | e]]; [| discriminate].
    intros [= <- <-] [Hoff | Hoff]; cbn in Hoff.
    + rewrite Hoff in Hon. discriminate Hon.
    + rewrite Hoff, andb_false_r in Hon. discriminate Hon.
  - intros [= <- <-] _. split; [reflexivity |]. congruence.
Qed.

End Startup.

Lemma load_config_reload_witness :
  exists w1,
    load_config quiet_env "config.json" empty_world = (w1, Ok default_config) /\
    read_error quiet_env (steps w1) "config.json" = None /\
    config_files w1 !! "config.json"%string = Some default_config /\
    load_config quiet_env "config.json" w1 = (asked w1, Ok default_config).
Proof.
  assert (exists w1, load_config quiet_env "config.json" empty_world = (w1, Ok default_config))
    as (w1 & Hload) by (eexists; vm_compute; reflexivity).
  exists w1. split; [exact Hload |]. split; [reflexivity |].
  exact (load_config_reload quiet_env "config.json" empty_world w1 default_config
           Hload eq_refl).
Defined.

Lemma init_uses_config_as_read_witness :
  config_files markets_only_world !! "config.json"%string = Some markets_only /\
  exists w' monitor,
    init quiet_env true "config.json" markets_only_world = (w', Ok monitor) /\
    config monitor = markets_only /\
    csv_file monitor = "arbitrage_data.csv"%string /\
    config_files w' = config_files markets_only_world.
Proof.
  split; [reflexivity |].
  assert (exists w' monitor,
             init quiet_env true "config.json" markets_only_world = (w', Ok monitor))
    as (w' & monitor & Hinit) by (eexists _, _; vm_compute; reflexivity).
  exists w', monitor. split; [exact Hinit |].
  exact (init_uses_config_as_read quiet_env true "config.json" markets_only
           markets_only_world w' monitor eq_refl Hinit).
Defined.

Lemma mirror_off_by_default_witness :
  exists w' monitor,
    init quiet_env true "config.json" empty_world = (w', Ok monitor) /\
    gsheet monitor = None /\ sheets w' = sheets empty_world.
Proof.
  assert (exists w' monitor,
             init quiet_env true "config.json" empty_world = (w', Ok monitor) /\
             truthy (default (JBool false) (use_google_sheets (config monitor))) = false)
    as (w' & monitor & Hinit & Huse)
    by (eexists _, _; split; [vm_compute; reflexivity | reflexivity]).
  exists w', monitor. split; [exact Hinit |].
  exact (mirror_off_by_default quiet_env true "config.json" empty_world w' monitor
           Hinit (or_intror Huse)).
Defined.

(** Any value that Python takes for true turns the mirror on: the string
    ["false"], for one. *)
Example string_false_turns_mirror_on :
  exists w' monitor,
    init quiet_env true "config.json" said_false_world = (w', Ok monitor) /\
    gsheet monitor = Some "Polymarket Arbitrage Data"%string.
Proof. eexists _, _. split; vm_compute; reflexivity. Qed.

(** ** The mirror at start-up *)

Section MirrorSetup.

Variable env : Env.

Ltac io_walk :=
  repeat first
    [ rewrite bind_eq
    | progress cbn [mret IO_ret get_world sheets asked logged ask steps set_sheet with_sheet
                    emit print raise] ].

Lemma try_except_escape {A} (body : IO A) (catches : exn -> bool) (handler : exn -> IO A)
    (w w' : World) (e : exn) :
  (forall e0 w0, exists w1 a, handler e0 w0 = (w1, Ok a)) ->
  try_except body catches handler w = (w', Raise e) ->
  catches e = false.
Proof.
  intros Hh. unfold try_except.
  destruct (body w) as [w1 [a | e1]]; [discriminate |].
  destruct (catches e1) eqn:Hc.
  - destruct (Hh e1 w1) as (w2 & a & ->). discriminate.
  - intros [= _ <-]. exact Hc.
Qed.

(** X4: A failure while the mirror is set up never stops the start-up: no
    [Exception] leaves [setup_google_sheets], and when the service refuses
    the credentials the failure is reported once, the worksheets are not
    touched and the monitor is left without a mirror. *)
Theorem sheets_setup_contained (c : Config) (w : World) :
  (forall w' e, setup_google_sheets env c w = (w', Raise e) -> is_Exception e = false) /\
  (forall e, sheets_error env (steps w) = Some e -> is_Exception e = true ->
             setup_google_sheets env c w
             = (logged (Print WillOnlyWriteCsv) (logged (Print (CouldNotSetupSheets e)) (asked w)),
                Ok None)).
Proof.
  split.
  - intros w' e. unfold setup_google_sheets. apply try_except_escape.
    intros e0 w0. eexists _, _. reflexivity.
  - intros e Herr He. unfold setup_google_sheets, try_except, remote_call.
    rewrite !bind_eq. cbn [ask]. rewrite Herr. cbn [raise]. rewrite He. reflexivity.
Qed.

(** X5: With the service up, setting the mirror up gives a new or empty
    worksheet the CSV header as its only row, and leaves a worksheet whose
    first row is filled as it is: the header is not added twice. *)
Theorem sheets_header_once (c : Config) (w : World) :
  service_up env ->
  match sheets w !! sheet_name_of c with
  | None | Some [] =>
      exists w', setup_google_sheets env c w = (w', Ok (Some (sheet_name_of c))) /\
                 sheets w' = <[sheet_name_of c := [csv_header]]> (sheets w) /\
                 setup_google_sheets env c w' = (logged (Print (ShareLink (sheet_name_of c)))
                   (logged (Print (ConnectedToSheet (sheet_name_of c))) (asked (asked w'))),
                   Ok (Some (sheet_name_of c)))
  | Some ((_ :: _) :: _) =>
      exists w', setup_google_sheets env c w = (w', Ok (Some (sheet_name_of c))) /\
                 sheets w' = sheets w
  | Some ([] :: _) => True
  end.
Proof.
  intros Hup.
  assert (forall w0 (rows : list Row),
             sheets w0 !! sheet_name_of c = Some rows ->
             match rows with (_ :: _) :: _ => True | _ => False end ->
             setup_google_sheets env c w0
             = (logged (Print (ShareLink (sheet_name_of c)))
                  (logged (Print (ConnectedToSheet (sheet_name_of c))) (asked (asked w0))),
                Ok (Some (sheet_name_of c)))) as Hfilled.
  { intros w0 rows Hrows Hfirst. unfold sheet_name_of in *.
    set (name := default "Polymarket Arbitrage Data"%string (google_sheets_name c)) in *.
    unfold setup_google_sheets, try_except, remote_call. cbv zeta. fold name.
    unfold Row in *. io_walk. rewrite Hup. io_walk. rewrite Hup. io_walk. rewrite Hrows. io_walk.
    rewrite Hrows. cbn [default from_option id].
    destruct rows as [| [| x r] rest]; try contradiction. reflexivity. }
  assert (forall found : option (list Row), (found = None \/ found = Some []) ->
             sheets w !! sheet_name_of c = found ->
             exists w', setup_google_sheets env c w = (w', Ok (Some (sheet_name_of c))) /\
                        sheets w' = <[sheet_name_of c := [csv_header]]> (sheets w)) as Hnew.
  { intros found Hfound Hrows. unfold sheet_name_of in *.
    set (name := default "Polymarket Arbitrage Data"%string (google_sheets_name c)) in *.
    unfold setup_google_sheets, try_except, remote_call, sheet_append_row, remote_call.
    cbv zeta. fold name. unfold Row in *.
    io_walk. rewrite Hup. io_walk. rewrite Hup. io_walk. rewrite Hrows.
    destruct Hfound as [-> | ->].
    - io_walk. rewrite lookup_insert_eq. cbn [default from_option id]. io_walk. rewrite Hup. io_walk.
      rewrite lookup_insert_eq. cbn [default from_option id app]. io_walk.
      eexists. split; [reflexivity |]. cbn. apply insert_insert_eq.
    - io_walk. rewrite Hrows. cbn [default from_option id]. io_walk. rewrite Hup. io_walk.
      rewrite Hrows. cbn [default from_option id app]. io_walk.
      eexists. split; [reflexivity |]. reflexivity. }
  destruct (sheets w !! sheet_name_of c) as [[| [| x r] rest] |] eqn:Hrows.
  - destruct (Hnew _ (or_intror eq_refl) eq_refl) as (w' & Hrun & Hsheets).
    exists w'. split; [exact Hrun |]. split; [exact Hsheets |].
    apply (Hfilled w' [csv_header]); [rewrite Hsheets; apply lookup_insert_eq | exact I].
  - exact I.
  - eexists. split; [apply (Hfilled w _ Hrows I) |]. reflexivity.
  - destruct (Hnew _ (or_introl eq_refl) eq_refl) as (w' & Hrun & Hsheets).
    exists w'. split; [exact Hrun |]. split; [exact Hsheets |].
    apply (Hfilled w' [csv_header]); [rewrite Hsheets; apply lookup_insert_eq | exact I].
Qed.

End MirrorSetup.

Lemma sheets_setup_contained_witness :
  sheets_error no_credentials_env 0 = Some (Exception "credentials.json not found") /\
  setup_google_sheets no_credentials_env mirrored_config empty_world
  = (logged (Print WillOnlyWriteCsv)
       (logged (Print (CouldNotSetupSheets (Exception "credentials.json not found")))
          (asked empty_world)), Ok None).
Proof.
  split; [reflexivity |].
  exact (proj2 (sheets_setup_contained no_credentials_env mirrored_config empty_world)
           _ eq_refl eq_refl).
Defined.

Lemma sheets_header_once_witness :
  service_up quiet_env /\
  exists w', setup_google_sheets quiet_env mirrored_config empty_world
             = (w', Ok (Some "Polymarket Arbitrage Data"%string)) /\
             sheets w' !! "Polymarket Arbitrage Data"%string = Some [csv_header].
Proof.
  split; [intros i; reflexivity |].
  destruct (sheets_header_once quiet_env mirrored_config empty_world (fun i => eq_refl))
    as (w' & Hrun & Hsheets & _).
  exists w'. split; [exact Hrun |]. rewrite Hsheets. reflexivity.
Defined.

(** ** A log file that exists without a header *)

Section Headerless.

Variable env : Env.
Variable GSHEETS_AVAILABLE : bool.

(** X6: [setup_csv] only looks at whether the file exists: a log file that is
    already there without a header row (an empty file, say) never gets
    one, however many times the program is started; the runs append their
    records after what they found. *)
Theorem headerless_log_stays_headerless (fuels : list nat) (w : World) (rows : list Row) :
  csv_files w !! destination w = Some rows ->
  Forall (fun row => row <> csv_header) rows ->
  let w' := restarts env GSHEETS_AVAILABLE fuels w in
  exists data,
    csv_files w' !! destination w = Some (rows ++ data) /\
    Forall (fun row => row <> csv_header) (rows ++ data).
Proof.
  intros Hrows Hnone w'.
  rewrite csv_files_lookup in Hrows.
  destruct (files w !! destination w) as [content |] eqn:Hf; [| discriminate Hrows].
  injection Hrows as Hrows.
  destruct (restarts_log env GSHEETS_AVAILABLE (destination w) fuels w)
    as (_ & Hrun & _); [intros _; reflexivity |].
  rewrite Hf in Hrun. destruct (appended_to_rows _ _ _ Hrun) as (data & Hf' & Hdata).
  exists data. subst w'. rewrite Hf', Hrows. split; [reflexivity |].
  apply Forall_app. auto.
Qed.

End Headerless.

Lemma headerless_log_stays_headerless_witness :
  csv_files empty_log_world !! destination empty_log_world = Some [] /\
  exists data,
    csv_files (restarts quiet_env false [1; 2]%nat empty_log_world) !! "arbitrage_data.csv"%string
    = Some data /\
    Forall (fun row => row <> csv_header) data.
Proof.
  split; [reflexivity |].
  exact (headerless_log_stays_headerless quiet_env false [1; 2]%nat empty_log_world []
           eq_refl (List.Forall_nil _)).
Defined.

(** ** More on [record_data] *)

Section Observation.

Variable env : Env.

Lemma no_alert_in_mirror (self : Monitor) (row : Row) (i : nat) :
  existsb is_alert (mirror_events env self row i) = false.
Proof.
  unfold mirror_events. destruct (gsheet self); [| reflexivity].
  destruct (sheets_error env i); reflexivity.
Qed.

(** X7: The alert and the recorded boolean agree: the "ARBITRAGE FOUND" line
    is printed exactly when the record says YES in its Below_1.00 column. *)
Theorem alert_iff_below_primary (self : Monitor) (market : Market) (y n : float) (w : World)
    (tp ts tr : float) :
  has_levels self tp ts tr ->
  write_error env (S (steps w)) (csv_file self) = None ->
  (forall e, sheets_error env (S (S (steps w))) = Some e -> is_Exception e = true) ->
  exists w' gap row evs,
    record_data env self market y n w = (w', Ok gap) /\
    csv_rows w' (csv_file self) = csv_rows w (csv_file self) ++ [row] /\
    trace w' = trace w ++ evs /\
    (column "Below_1.00" row = Some "YES"%string <-> existsb is_alert evs = true).
Proof.
  intros Hlv Hopen Hsheet.
  destruct (record_data_ok env self market y n w tp ts tr Hlv Hopen Hsheet)
    as (w' & Hrun & _ & Hcsv & Htrace & _).
  eexists w', _, _, _. split; [exact Hrun |].
  split; [exact (csv_rows_insert _ _ _ _ Hcsv) |]. split; [exact Htrace |].
  cbn [existsb is_alert orb]. rewrite existsb_app, no_alert_in_mirror. cbn [orb].
  unfold alert_events.
  change (column "Below_1.00" (observation_row (utcnow env (steps w)) market y n tp ts tr))
    with (Some (yes_no (ltb (add y n) tp))).
  destruct (ltb (add y n) tp); cbn; split; intros H; congruence.
Qed.

(** X8: A threshold set that lacks one of the three levels makes [record_data]
    raise [KeyError] for a missing level before anything is written or
    printed; in the scheduler the error is not caught, so the monitor ends
    at its first fetched market with nothing recorded. *)
Theorem missing_level_raises (self : Monitor) (tset : gmap string float) (level : string)
    (market : Market) (rest : list Market) (y n : float) (seconds : Z) (w : World) :
  thresholds (config self) = Some tset ->
  level ∈ ["primary"; "secondary"; "tertiary"]%string ->
  tset !! level = None ->
  markets (config self) = Some (market :: rest) ->
  polling_interval_seconds (config self) = Some seconds ->
  price_request env (S (steps w)) market = inr (y, n) ->
  exists key,
    tset !! key = None /\
    (forall w0, record_data env self market y n w0 = (asked w0, Raise (KeyError key))) /\
    forall fuel, exists w',
      monitor_markets env self (S fuel) w = (w', Raise (KeyError key)) /\
      csv_files w' = csv_files w /\ sheets w' = sheets w.
Proof.
  intros Hth Hin Hnone Hms Hint Hreq.
  assert (exists key, tset !! key = None /\
            forall w0, record_data env self market y n w0 = (asked w0, Raise (KeyError key)))
    as (key & Hkey & Hrec).
  { unfold record_data. rewrite Hth.
    destruct (tset !! "primary"%string) as [tp |] eqn:Hp;
      [| exists "primary"%string; split; [exact Hp | intros w0; rewrite bind_eq; cbn [ask getitem];
                                           rewrite bind_eq; cbn [mret IO_ret]; rewrite Hp; reflexivity]].
    destruct (tset !! "secondary"%string) as [ts |] eqn:Hs;
      [| exists "secondary"%string; split; [exact Hs |]; intros w0; rewrite bind_eq;
         cbn [ask getitem]; rewrite bind_eq; cbn [mret IO_ret]; rewrite Hp; cbn [getitem];
         rewrite bind_eq; cbn [mret IO_ret]; rewrite Hs; reflexivity].
    destruct (tset !! "tertiary"%string) as [tr |] eqn:Ht;
      [| exists "tertiary"%string; split; [exact Ht |]; intros w0; rewrite bind_eq;
         cbn [ask getitem]; rewrite bind_eq; cbn [mret IO_ret]; rewrite Hp; cbn [getitem];
         rewrite bind_eq; cbn [mret IO_ret]; rewrite Hs; cbn [getitem];
         rewrite bind_eq; cbn [mret IO_ret]; rewrite Ht; reflexivity].
    exfalso. set_unfold in Hin. destruct Hin as [-> | [-> | [-> | []]]]; congruence. }
  exists key. split; [exact Hkey |]. split; [exact Hrec |]. intros fuel.
  destruct (monitor_markets_eq env self (market :: rest) seconds Hms Hint w)
    as (wb & Hcsv & Hsteps & Hmon).
  assert (sheets wb = sheets w) as Hsh.
  { specialize (Hmon 0%nat). revert Hmon. unfold monitor_markets. rewrite Hms, Hint.
    destruct (bool_decide (is_Some (gsheet self))); io_run; intros [= <-]; reflexivity. }
  rewrite Hmon. unfold try_except. cbn [loop]. rewrite bind_eq.
  rewrite (tick_raise env self (market :: rest) Hms 1 wb
             (asked (asked (logged (Print (Iteration 1 (utcnow env (steps wb)))) (asked wb))))
             (KeyError key)).
  - eexists. split; [reflexivity |]. split; [exact Hcsv | exact Hsh].
  - cbn [poll_markets]. rewrite bind_eq. unfold poll_market.
    rewrite bind_eq, fetch_market_prices_eq. cbn [steps logged asked].
    rewrite Hsteps, Hreq. unfold handle_prices. rewrite bind_eq, Hrec. reflexivity.
Qed.

(** X9: Levels with other names are not read: adding one to the threshold set
    changes nothing of what [record_data] does. *)
Theorem other_levels_ignored (self : Monitor) (tset : gmap string float) (level : string)
    (ceiling : float) (market : Market) (y n : float) (w : World) :
  thresholds (config self) = Some tset ->
  level ∉ ["primary"; "secondary"; "tertiary"]%string ->
  record_data env (with_thresholds self (<[level := ceiling]> tset)) market y n w
  = record_data env self market y n w.
Proof.
  intros Hth Hout. unfold record_data. cbn [with_thresholds config thresholds]. rewrite Hth.
  rewrite !bind_eq. cbn [ask getitem]. rewrite !bind_eq. cbn [mret IO_ret].
  assert (level <> "primary"%string /\ level <> "secondary"%string /\ level <> "tertiary"%string)
    as (H1 & H2 & H3) by (set_unfold in Hout; tauto).
  rewrite (lookup_insert_ne tset level "primary"%string ceiling H1).
  rewrite (lookup_insert_ne tset level "secondary"%string ceiling H2).
  rewrite (lookup_insert_ne tset level "tertiary"%string ceiling H3).
  reflexivity.
Qed.

(** X10: The mirror receives the very row that goes to the CSV file: when the
    append to the worksheet succeeds, the last row of the worksheet and
    the last row of the log are the same record. *)
Theorem mirror_gets_same_row (self : Monitor) (sheet_name : string) (market : Market)
    (y n : float) (w : World) (tp ts tr : float) :
  has_levels self tp ts tr ->
  gsheet self = Some sheet_name ->
  write_error env (S (steps w)) (csv_file self) = None ->
  sheets_error env (S (S (steps w))) = None ->
  exists w' gap row,
    record_data env self market y n w = (w', Ok gap) /\
    csv_rows w' (csv_file self) = csv_rows w (csv_file self) ++ [row] /\
    sheets w' !! sheet_name = Some (default [] (sheets w !! sheet_name) ++ [row]).
Proof.
  intros Hlv Hg Hopen Herr.
  rewrite (record_data_eq env self market y n w tp ts tr Hlv). cbv zeta.
  rewrite bind_eq, write_to_csv_ok by exact Hopen.
  rewrite bind_eq. erewrite write_to_sheets_ok; [| exact Hg | exact Herr].
  destruct (ltb (add y n) tp); eexists _, _, _; (split; [reflexivity |]);
    (split; [| cbn [fst sheets logged with_file with_sheet asked]; apply lookup_insert_eq]);
    rewrite !csv_rows_content; cbn [files logged with_file with_sheet asked];
    rewrite lookup_insert_eq; cbn [default from_option id];
    rewrite rows_of_app; reflexivity.
Qed.

End Observation.

(** ** More on the scheduler *)

Section Stopping.

Variable env : Env.
Variable self : Monitor.

(** X11: A [KeyboardInterrupt] raised inside the loop, at whatever turn, is
    caught by [monitor_markets], which prints the summary that names the
    CSV file and returns normally, leaving the files and the worksheets as
    the interrupt found them. *)
Theorem interrupt_stops_cleanly (ms : list Market) (seconds : Z) (fuel : nat)
    (w w1 : World) :
  markets (config self) = Some ms ->
  polling_interval_seconds (config self) = Some seconds ->
  loop env self fuel 0 (after_banner self ms seconds w) = (w1, Raise KeyboardInterrupt) ->
  exists w',
    monitor_markets env self fuel w = (w', Ok Returned) /\
    trace w' = trace w1 ++ stop_summary self /\
    files w' = files w1 /\
    sheets w' = sheets w1.
Proof.
  intros Hms Hint Hloop. unfold monitor_markets. rewrite Hms, Hint.
  unfold after_banner, banner, stop_summary in *.
  destruct (bool_decide (is_Some (gsheet self)));
    cbn [app foldl] in Hloop; io_run; unfold try_except; rewrite Hloop; io_run;
    eexists; (split; [reflexivity |]); cbn; rewrite <- ?app_assoc; repeat split.
Qed.

End Stopping.

Lemma interrupt_stops_cleanly_witness :
  exists w1 w',
    loop impatient_env (sample_monitor [sample_market "A"] default_levels None) 3 0
      (after_banner (sample_monitor [sample_market "A"] default_levels None)
         [sample_market "A"] 5 empty_world)
    = (w1, Raise KeyboardInterrupt) /\
    monitor_markets impatient_env (sample_monitor [sample_market "A"] default_levels None)
      3 empty_world = (w', Ok Returned) /\
    trace w' = trace w1 ++ [Print Rule; Print StoppedByUser;
                            Print (DataSavedTo "arbitrage_data.csv"); Print Rule].
Proof.
  assert (exists w1,
             loop impatient_env (sample_monitor [sample_market "A"] default_levels None) 3 0
               (after_banner (sample_monitor [sample_market "A"] default_levels None)
                  [sample_market "A"] 5 empty_world)
             = (w1, Raise KeyboardInterrupt)) as (w1 & Hloop)
    by (eexists; vm_compute; reflexivity).
  destruct (interrupt_stops_cleanly impatient_env
              (sample_monitor [sample_market "A"] default_levels None)
              [sample_market "A"] 5 3 empty_world w1 eq_refl eq_refl Hloop)
    as (w' & Hrun & Htrace & _).
  exists w1, w'. split; [exact Hloop |]. split; [exact Hrun | exact Htrace].
Defined.

Section Misconfigured.

Variable env : Env.
Variable self : Monitor.
Variables tp ts tr : float.
Hypothesis Hlevels : has_levels self tp ts tr.
Hypothesis Hopen : files_open env.
Hypothesis Hquiet : no_interrupts env.
Variable ms : list Market.
Variable seconds : Z.
Hypothesis Hmarkets : markets (config self) = Some ms.
Hypothesis Hinterval : polling_interval_seconds (config self) = Some seconds.

(** X12: A negative polling interval is only noticed by [time.sleep]: the first
    pass over the markets is made and recorded, then [ValueError] ends
    the run. *)
Theorem negative_interval_raises (fuel : nat) (w : World) :
  seconds < 0 ->
  Forall (answers env) ms ->
  exists w' rows,
    monitor_markets env self (S fuel) w
    = (w', Raise (ValueError "sleep length must be non-negative")) /\
    csv_rows w' (csv_file self) = csv_rows w (csv_file self) ++ rows /\
    length rows = length ms.
Proof.
  intros Hneg Hall.
  destruct (monitor_markets_eq env self ms seconds Hmarkets Hinterval w)
    as (wb & Hcsv & _ & ->).
  destruct (poll_markets_recorded env self tp ts tr Hlevels Hopen Hquiet ms
              (logged (Print (Iteration 1 (utcnow env (steps wb)))) (asked wb)) Hall)
    as (w1 & rows & evs & Hrun & Hrows & Hids & _).
  assert (tick env self 1 wb = (w1, Raise (ValueError "sleep length must be non-negative")))
    as Htick.
  { unfold tick. rewrite Hmarkets, Hinterval. rewrite bind_eq. cbn [ask].
    rewrite bind_eq. cbn [print emit getitem]. rewrite bind_eq. cbn [mret IO_ret].
    rewrite bind_eq, Hrun. rewrite bind_eq. cbn [mret IO_ret]. unfold sleep.
    destruct (Z.ltb_spec seconds 0) as [_ | Hge]; [reflexivity | lia]. }
  exists w1, rows. unfold try_except. cbn [loop]. rewrite bind_eq, Htick. cbn.
  split; [reflexivity |]. split; [| exact (Forall2_length _ _ _ Hids)].
  rewrite Hrows. unfold csv_rows.
  change (csv_files (logged (Print (Iteration 1 (utcnow env (steps wb)))) (asked wb)))
    with (csv_files wb).
  rewrite Hcsv. reflexivity.
Qed.

Lemma no_status_in_mirror (row : Row) (i : nat) :
  status_lines (mirror_events env self row i) = [].
Proof.
  unfold mirror_events. destruct (gsheet self); [| reflexivity].
  destruct (sheets_error env i); reflexivity.
Qed.

Lemma no_status_in_alert (market : Market) (y n : float) :
  status_lines (alert_events market y n tp) = [].
Proof. unfold alert_events. destruct (ltb (add y n) tp); reflexivity. Qed.

Lemma poll_market_status (market : Market) (w : World) :
  exists w' evs,
    poll_market env self market w = (w', Ok tt) /\
    trace w' = trace w ++ evs /\
    length (status_lines evs) = 1%nat.
Proof.
  destruct (price_request env (steps w) market) as [e | [y n]] eqn:Hreq.
  - rewrite (poll_market_failed env self Hquiet market w e Hreq).
    eexists _, [Print (ErrorFetching (market_name market) e);
                Print (FailedToFetch (market_name market))].
    split; [reflexivity |]. split; [| reflexivity].
    cbn [trace logged asked]. rewrite <- app_assoc. reflexivity.
  - unfold poll_market. rewrite bind_eq, fetch_market_prices_eq, Hreq.
    destruct (record_data_ok env self market y n (asked w) tp ts tr Hlevels (Hopen _ _)
                (proj1 (proj2 Hquiet) _)) as (w1 & Hrun & _ & _ & Htrace & _).
    unfold handle_prices. rewrite bind_eq, Hrun.
    eexists _, _. split; [reflexivity |]. cbn [trace logged print emit fst].
    split; [rewrite Htrace, <- app_assoc; reflexivity |].
    unfold status_lines. cbn [app List.filter is_status_line].
    rewrite !List.filter_app.
    fold (status_lines (mirror_events env self
            (observation_row (utcnow env (steps (asked w))) market y n tp ts tr)
            (S (S (steps (asked w)))))).
    fold (status_lines (alert_events market y n tp)).
    rewrite no_status_in_mirror, no_status_in_alert. reflexivity.
Qed.

Lemma poll_markets_status (markets : list Market) (w : World) :
  exists w' evs,
    poll_markets env self markets w = (w', Ok tt) /\
    trace w' = trace w ++ evs /\
    length (status_lines evs) = length markets.
Proof.
  revert w. induction markets as [| m markets IH]; intros w.
  - exists w, []. rewrite app_nil_r. repeat split.
  - destruct (poll_market_status m w) as (w1 & evs1 & Hrun1 & Htr1 & Hlen1).
    destruct (IH w1) as (w2 & evs2 & Hrun2 & Htr2 & Hlen2).
    exists w2, (evs1 ++ evs2). cbn [poll_markets]. rewrite bind_eq, Hrun1, Hrun2.
    split; [reflexivity |]. split; [rewrite Htr2, Htr1, <- app_assoc; reflexivity |].
    unfold status_lines in *. rewrite List.filter_app, length_app, Hlen1, Hlen2. reflexivity.
Qed.

(** X13: Every tick prints exactly one status line per configured market,
    recorded or failed to fetch, whatever the requests answer. *)
Theorem one_status_line_per_market (it : nat) (w : World) :
  0 <= seconds ->
  exists w' evs,
    tick env self it w = (w', Ok tt) /\
    trace w' = trace w ++ evs /\
    length (status_lines evs) = length ms.
Proof.
  intros Hsec. rewrite (tick_eq env self Hquiet ms seconds Hmarkets Hinterval Hsec).
  destruct (poll_markets_status ms (logged (Print (Iteration it (utcnow env (steps w)))) (asked w)))
    as (w1 & evs & -> & Htr & Hlen).
  exists (asked (logged (Sleep seconds) w1)),
    (Print (Iteration it (utcnow env (steps w))) :: evs ++ [Sleep seconds]).
  split; [reflexivity |]. split.
  - cbn [trace asked logged]. rewrite Htr. cbn [trace asked logged].
    rewrite <- !app_assoc. reflexivity.
  - unfold status_lines in *. cbn [List.filter is_status_line].
    rewrite List.filter_app, length_app, Hlen. cbn. lia.
Qed.

End Misconfigured.

Section AllRequestsFail.

Variable env : Env.
Variable self : Monitor.
Hypothesis Hquiet : no_interrupts env.
Hypothesis Hfail : forall i m, exists e, price_request env i m = inl e.
Variable ms : list Market.
Variable seconds : Z.
Hypothesis Hmarkets : markets (config self) = Some ms.
Hypothesis Hinterval : polling_interval_seconds (config self) = Some seconds.
Hypothesis Hseconds : 0 <= seconds.




End AllRequestsFail.

(** ** What the monitor leaves alone *)

Section Frame.

Variable env : Env.
Variable self : Monitor.
Variable Q : gmap string (list Item) -> Prop.
Hypothesis Hinsert : forall fs content, Q fs -> Q (<[csv_file self := content]> fs).

Lemma frame_write_to_csv (row : Row) : keeps Q (write_to_csv env self row).
Proof.
  intros w Hw. unfold write_to_csv. rewrite bind_eq. cbn [get_world].
  destruct (write_row_adds env (csv_file self) (default [] (files w !! csv_file self)) row w)
    as (extra & [Hsame | [Hnew _]]).
  - rewrite Hsame. exact Hw.
  - rewrite Hnew. apply Hinsert. exact Hw.
Qed.

Lemma frame_record_data (market : Market) (y n : float) :
  keeps Q (record_data env self market y n).
Proof.
  unfold record_data. keeps_auto;
    first [ apply keeps_write_to_sheets | apply frame_write_to_csv ].
Qed.

Lemma frame_poll_markets (ms : list Market) : keeps Q (poll_markets env self ms).
Proof.
  induction ms as [| m ms IH]; cbn [poll_markets]; [keeps_auto |].
  apply keeps_bind; [| intros _; exact IH].
  unfold poll_market, handle_prices. keeps_auto;
    first [ apply keeps_fetch_market_prices | apply frame_record_data ].
Qed.

Lemma frame_loop (fuel it : nat) : keeps Q (loop env self fuel it).
Proof.
  revert it. induction fuel as [| fuel IH]; intros it; cbn [loop]; [keeps_auto |].
  apply keeps_bind; [| intros _; apply IH].
  unfold tick. keeps_auto; first [ apply frame_poll_markets | apply keeps_sleep ].
Qed.

Lemma frame_monitor_markets (fuel : nat) : keeps Q (monitor_markets env self fuel).
Proof. unfold monitor_markets. keeps_auto. apply frame_loop. Qed.

End Frame.

(** X15: A running monitor writes to its own log file and to nothing else on
    disk: whatever happens during the run, every file under another path
    is left as it was. *)
Theorem monitor_touches_only_its_log (env : Env) (self : Monitor) (fuel : nat) (w : World)
    (path : string) :
  path <> csv_file self ->
  files (monitor_markets env self fuel w).1 !! path = files w !! path.
Proof.
  intros Hpath.
  apply (frame_monitor_markets env self (fun fs => fs !! path = files w !! path)).
  - intros fs content Hfs. rewrite lookup_insert_ne by congruence. exact Hfs.
  - reflexivity.
Qed.

(** ** The further properties at work on concrete runs *)


Lemma alert_iff_below_primary_witness :
  has_levels (sample_monitor [] default_levels None) (lit 100 100) (lit 95 100) (lit 90 100) /\
  exists w' gap row evs,
    record_data quiet_env (sample_monitor [] default_levels None) (sample_market "A")
      (lit 46 100) (lit 50 100) empty_world = (w', Ok gap) /\
    csv_rows w' "arbitrage_data.csv" = [row] /\
    trace w' = evs /\
    (column "Below_1.00" row = Some "YES"%string <-> existsb is_alert evs = true).
Proof.
  split; [apply default_levels_has |].
  apply (alert_iff_below_primary quiet_env (sample_monitor [] default_levels None)
           (sample_market "A") (lit 46 100) (lit 50 100) empty_world
           (lit 100 100) (lit 95 100) (lit 90 100)).
  - apply default_levels_has.
  - reflexivity.
  - intros e H. discriminate H.
Defined.

Lemma missing_level_raises_witness :
  primary_only !! "secondary"%string = None /\
  exists key w',
    monitor_markets quiet_env (sample_monitor [sample_market "A"] primary_only None) 1 empty_world
    = (w', Raise (KeyError key)) /\
    csv_files w' = csv_files empty_world.
Proof.
  split; [reflexivity |].
  destruct (missing_level_raises quiet_env
              (sample_monitor [sample_market "A"] primary_only None) primary_only
              "secondary"%string (sample_market "A") [] (lit 46 100) (lit 50 100) 5 empty_world
              eq_refl ltac:(set_unfold; auto) eq_refl eq_refl eq_refl eq_refl)
    as (key & _ & _ & Hmon).
  destruct (Hmon 0%nat) as (w' & Hrun & Hcsv & _).
  exists key, w'. split; [exact Hrun | exact Hcsv].
Defined.

Lemma other_levels_ignored_witness :
  record_data quiet_env
    (with_thresholds (sample_monitor [] default_levels None)
       (<["quaternary"%string := lit 85 100]> default_levels))
    (sample_market "A") (lit 46 100) (lit 50 100) empty_world
  = record_data quiet_env (sample_monitor [] default_levels None)
      (sample_market "A") (lit 46 100) (lit 50 100) empty_world.
Proof.
  apply (other_levels_ignored quiet_env (sample_monitor [] default_levels None) default_levels
           "quaternary"%string (lit 85 100)).
  - reflexivity.
  - set_unfold. intros [H | [H | [H | []]]]; discriminate H.
Defined.

Lemma mirror_gets_same_row_witness :
  gsheet (sample_monitor [] default_levels (Some "Mirror"%string)) = Some "Mirror"%string /\
  exists w' gap row,
    record_data quiet_env (sample_monitor [] default_levels (Some "Mirror"%string))
      (sample_market "A") (lit 46 100) (lit 50 100) empty_world = (w', Ok gap) /\
    csv_rows w' "arbitrage_data.csv" = [row] /\
    sheets w' !! "Mirror"%string = Some [row].
Proof.
  split; [reflexivity |].
  apply (mirror_gets_same_row quiet_env (sample_monitor [] default_levels (Some "Mirror"%string))
           "Mirror"%string (sample_market "A") (lit 46 100) (lit 50 100) empty_world
           (lit 100 100) (lit 95 100) (lit 90 100)).
  - apply default_levels_has.
  - reflexivity.
  - reflexivity.
  - reflexivity.
Defined.

Lemma hasty_monitor_levels (ms : list Market) :
  has_levels (hasty_monitor ms) (lit 100 100) (lit 95 100) (lit 90 100).
Proof. exists default_levels. repeat split. Qed.

Lemma negative_interval_raises_witness :
  polling_interval_seconds (config (hasty_monitor [sample_market "A"; sample_market "B"]))
  = Some (-1) /\
  exists w' rows,
    monitor_markets quiet_env (hasty_monitor [sample_market "A"; sample_market "B"]) 3 empty_world
    = (w', Raise (ValueError "sleep length must be non-negative")) /\
    csv_rows w' "arbitrage_data.csv" = rows /\
    length rows = 2%nat.
Proof.
  split; [reflexivity |].
  apply (negative_interval_raises quiet_env (hasty_monitor [sample_market "A"; sample_market "B"])
           (lit 100 100) (lit 95 100) (lit 90 100) (hasty_monitor_levels _)
           (fun i f => eq_refl) quiet_env_no_interrupts
           [sample_market "A"; sample_market "B"] (-1) eq_refl eq_refl 2%nat empty_world).
  - lia.
  - repeat constructor; intros i; eexists _, _; reflexivity.
Defined.

Lemma one_status_line_per_market_witness :
  no_interrupts b_fails_env /\
  exists w' evs,
    tick b_fails_env
      (sample_monitor [sample_market "A"; sample_market "B"; sample_market "C"]
         default_levels None) 1 empty_world = (w', Ok tt) /\
    trace w' = evs /\
    length (status_lines evs) = 3%nat.
Proof.
  split; [apply b_fails_no_interrupts |].
  apply (one_status_line_per_market b_fails_env
           (sample_monitor [sample_market "A"; sample_market "B"; sample_market "C"]
              default_levels None)
           (lit 100 100) (lit 95 100) (lit 90 100) (default_levels_has _ _)
           (fun i f => eq_refl) b_fails_no_interrupts
           [sample_market "A"; sample_market "B"; sample_market "C"] 5 eq_refl eq_refl
           1%nat empty_world).
  lia.
Defined.


Lemma monitor_touches_only_its_log_witness :
  "config.json"%string <> "arbitrage_data.csv"%string /\
  files (monitor_markets quiet_env (sample_monitor [sample_market "A"] default_levels None)
           2 markets_only_world).1 !! "config.json"%string
  = Some [Doc markets_only].
Proof.
  split; [discriminate |].
  exact (monitor_touches_only_its_log quiet_env
           (sample_monitor [sample_market "A"] default_levels None) 2 markets_only_world
           "config.json"%string ltac:(discriminate)).
Defined.
